(** * CalQ: a verification development for the calorie tracker

    The development follows the three source modules:
    - [models.py]     : the [UserLog] record;
    - [calculator.py] : serving-size scaling and the in-memory filters;
    - [ui.py]         : the [DatabaseManager] class over SQLite.

    Python values that reach [float()] are modelled by [PyValue], Python
    floats by IEEE-754 binary64 ([spec_float] at precision 53, emax 1024),
    exceptions by the [exn] enumeration, and the methods of
    [DatabaseManager] by a small state-and-exception monad over the manager
    object and the database file it is connected to. *)

From Stdlib Require Import ZArith List String Ascii Bool Lia.
From Stdlib Require Import Floats.SpecFloat.
From Stdlib Require Import Sorting.Permutation.
Import ListNotations.
Open Scope string_scope.
Open Scope Z_scope.

(* ===================================================================== *)
(** * Python runtime: exceptions, floats, strings                          *)
(* ===================================================================== *)

(** The exception classes that the modelled code raises or catches.
    [Sqlite3Error] stands for [sqlite3.Error] and all its subclasses. *)
Inductive exn : Type :=
  | TypeError
  | ValueError
  | OverflowError
  | ZeroDivisionError
  | AttributeError
  | Sqlite3Error.

(** The result of evaluating a Python expression or call. *)
Inductive outcome (A : Type) : Type :=
  | Returned (a : A)
  | Raised (e : exn).
Arguments Returned {A} a.
Arguments Raised {A} e.

(** Python's [float] is IEEE-754 binary64. *)
Definition float : Type := spec_float.

Module Float.

Definition prec : Z := 53.
Definition emax : Z := 1024.

Definition zero : float := S754_zero false.
Definition nan : float := S754_nan.
Definition infinity (neg : bool) : float := S754_infinity neg.

Definition add : float -> float -> float := SFadd prec emax.
Definition mul : float -> float -> float := SFmul prec emax.
Definition div : float -> float -> float := SFdiv prec emax.
Definition eqb : float -> float -> bool := SFeqb.

(** The nearest binary64 to [m * 2^e] (ties to even); an infinity when
    the rounded magnitude exceeds the largest finite float. *)
Definition of_scaled (m e : Z) : float := binary_normalize prec emax m e false.
Definition of_Z (z : Z) : float := of_scaled z 0.

Definition is_finite (f : float) : bool :=
  match f with
  | S754_zero _ | S754_finite _ _ _ => true
  | _ => false
  end.
Definition is_nan (f : float) : bool :=
  match f with
  | S754_nan => true
  | _ => false
  end.

(** Truth value of a float in a Python condition: zeros are false,
    everything else (NaN included) is true. *)
Definition truthy (f : float) : bool :=
  match f with
  | S754_zero _ => false
  | _ => true
  end.

(** The nearest binary64 to the decimal [(-1)^neg * m * 10^e10], [0 <= m].
    For a negative exponent the quotient is computed with 64 guard bits
    and a sticky bit, which makes the final rounding correct. *)
Definition of_decimal (neg : bool) (m e10 : Z) : float :=
  if m =? 0 then S754_zero neg
  else
    let sgn (x : Z) := if neg then - x else x in
    if 0 <=? e10 then of_Z (sgn (m * 10 ^ e10))
    else
      let d := 10 ^ (- e10) in
      let s := Z.log2 d + 64 in
      let q := (m * 2 ^ s) / d in
      let r := (m * 2 ^ s) mod d in
      of_scaled (sgn (2 * q + (if r =? 0 then 0 else 1))) (- (s + 1)).

End Float.

Module Str.

Definition is_upper (c : ascii) : bool :=
  let n := N_of_ascii c in ((65 <=? n) && (n <=? 90))%N.
Definition is_digit (c : ascii) : bool :=
  let n := N_of_ascii c in ((48 <=? n) && (n <=? 57))%N.
(** The ASCII characters [str.strip()] removes: space, \t \n \v \f \r and
    the separators \x1c..\x1f. *)
Definition is_space (c : ascii) : bool :=
  let n := N_of_ascii c in
  ((n =? 32) || ((9 <=? n) && (n <=? 13)) || ((28 <=? n) && (n <=? 31)))%N.
(** The characters [float()] skips around a number: space and
    \t \n \v \f \r only; the separators \x1c..\x1f are not among them. *)
Definition is_float_space (c : ascii) : bool :=
  let n := N_of_ascii c in ((n =? 32) || ((9 <=? n) && (n <=? 13)))%N.

(** A character of the ASCII range, and a text made of such characters. *)
Definition is_ascii_char (c : ascii) : bool := (N_of_ascii c <? 128)%N.
Fixpoint is_ascii (s : string) : bool :=
  match s with
  | EmptyString => true
  | String c rest => is_ascii_char c && is_ascii rest
  end.

Definition lower_char (c : ascii) : ascii :=
  if is_upper c then ascii_of_N (N_of_ascii c + 32) else c.

(** [str.lower()] on ASCII text ([is_ascii]): the letters A-Z are mapped to
    a-z and every other character is kept. Outside the ASCII range
    [str.lower()] lowers further letters, which this function does not
    follow; the properties below that go through it are stated for ASCII
    text. *)
Fixpoint lower (s : string) : string :=
  match s with
  | EmptyString => EmptyString
  | String c rest => String (lower_char c) (lower rest)
  end.

Definition digit_value (c : ascii) : Z := Z.of_N (N_of_ascii c) - 48.

End Str.

(* ===================================================================== *)
(** * The builtin [float()]                                                *)
(* ===================================================================== *)

(** The values the calculator may be handed. The annotations say [float];
    the body calls [float()] on each argument, so integers, booleans and
    strings are converted and anything else is a [TypeError]. *)
Inductive PyValue : Type :=
  | PyNone
  | PyBool (b : bool)
  | PyInt (z : Z)
  | PyFloat (f : float)
  | PyStr (s : string).

Module FloatParse.
Import Str.

Definition underscore : ascii := "_"%char.

(** Longest prefix made of digits and underscores, and what follows. *)
Fixpoint span_digits (l : list ascii) : list ascii * list ascii :=
  match l with
  | c :: rest =>
      if is_digit c || Ascii.eqb c underscore
      then let (d, r) := span_digits rest in (c :: d, r)
      else ([], l)
  | [] => ([], [])
  end.

(** [digitpart ::= digit (["_"] digit)*]: [after_digit] tells whether the
    previous character was a digit. *)
Fixpoint digitpart_tail (after_digit : bool) (l : list ascii) : bool :=
  match l with
  | [] => after_digit
  | c :: rest =>
      if is_digit c then digitpart_tail true rest
      else if Ascii.eqb c underscore
           then after_digit && digitpart_tail false rest
           else false
  end.
Definition is_digitpart (l : list ascii) : bool :=
  match l with
  | c :: _ => is_digit c && digitpart_tail false l
  | [] => false
  end.

Definition only_digits (l : list ascii) : list ascii := filter is_digit l.
Definition decimal_value (l : list ascii) : Z :=
  fold_left (fun acc c => 10 * acc + digit_value c) (only_digits l) 0.

(** Dropping the characters of the class [space] at both ends. *)
Definition strip_left (space : ascii -> bool) (l : list ascii) : list ascii :=
  (fix go (l : list ascii) :=
     match l with
     | c :: rest => if space c then go rest else l
     | [] => []
     end) l.
Definition strip_with (space : ascii -> bool) (l : list ascii) : list ascii :=
  rev (strip_left space (rev (strip_left space l))).
(** [str.strip()] on the characters of a string. *)
Definition strip (l : list ascii) : list ascii := strip_with is_space l.

Definition split_sign (l : list ascii) : bool * list ascii :=
  match l with
  | "-"%char :: rest => (true, rest)
  | "+"%char :: rest => (false, rest)
  | _ => (false, l)
  end.

(** [exponent ::= ("e" | "E") [sign] digitpart], or nothing. *)
Definition parse_exponent (l : list ascii) : option Z :=
  match l with
  | [] => Some 0
  | c :: rest =>
      if Ascii.eqb c "e"%char || Ascii.eqb c "E"%char then
        let (neg, ds) := split_sign rest in
        if is_digitpart ds && Nat.eqb (List.length (snd (span_digits ds))) 0
        then Some (if neg then - decimal_value ds else decimal_value ds)
        else None
      else None
  end.

(** [number ::= [digitpart] "." digitpart | digitpart ["."]], followed by
    an optional exponent; the value is returned as mantissa and decimal
    exponent. *)
Definition parse_number (l : list ascii) : option (Z * Z) :=
  let (ip, r) := span_digits l in
  let '(fp, r') :=
    match r with
    | "."%char :: after => let (fp, r') := span_digits after in (Some fp, r')
    | _ => (None, r)
    end in
  let shape :=
    match ip, fp with
    | [], Some f => is_digitpart f
    | _, None => is_digitpart ip
    | _, Some [] => is_digitpart ip
    | _, Some f => is_digitpart ip && is_digitpart f
    end in
  if shape then
    match parse_exponent r' with
    | Some e =>
        let f := match fp with Some f => f | None => [] end in
        Some (decimal_value (ip ++ f)%list, e - Z.of_nat (List.length (only_digits f)))
    | None => None
    end
  else None.

(** [float(s)] for a string of ASCII characters: surrounding whitespace
    ([is_float_space]) is ignored, then an optional sign and one of [inf],
    [infinity], [nan] (any case) or a decimal number. [None] is the
    [ValueError]. *)
Definition float_of_string (s : string) : option float :=
  let (neg, body) :=
    split_sign (strip_with is_float_space (list_ascii_of_string s)) in
  let word := lower (string_of_list_ascii body) in
  if String.eqb word "inf" || String.eqb word "infinity"
  then Some (Float.infinity neg)
  else if String.eqb word "nan" then Some Float.nan
  else
    match parse_number body with
    | Some (m, e10) => Some (Float.of_decimal neg m e10)
    | None => None
    end.

End FloatParse.

(** [float(x)]. An integer too large for a binary64 is an [OverflowError];
    a string that is not a number is a [ValueError]; [None] (or any other
    object without a float conversion) is a [TypeError]. *)
Definition py_float (x : PyValue) : outcome float :=
  match x with
  | PyNone => Raised TypeError
  | PyBool b => Returned (Float.of_Z (if b then 1 else 0))
  | PyInt z =>
      let f := Float.of_Z z in
      if Float.is_finite f then Returned f else Raised OverflowError
  | PyFloat f => Returned f
  | PyStr s =>
      match FloatParse.float_of_string s with
      | Some f => Returned f
      | None => Raised ValueError
      end
  end.

(* ===================================================================== *)
(** * The [datetime] values the code uses                                  *)
(* ===================================================================== *)

Module Datetime.

(** A naive local [datetime]: the proleptic Gregorian day number
    ([toordinal()], day 1 is 0001-01-01) and the microsecond within that
    day. [datetime.now()] yields days of the years 1970..9999. *)
Record datetime : Type := mkDatetime {
  ordinal : Z;
  microsecond_of_day : Z
}.

(** [dt - timedelta(days=i)]: the time of day is kept. *)
Definition minus_days (dt : datetime) (i : Z) : datetime :=
  mkDatetime (ordinal dt - i) (microsecond_of_day dt).

Definition days_before_month (month : Z) : Z :=
  nth (Z.to_nat month)
      [0; 0; 31; 59; 90; 120; 151; 181; 212; 243; 273; 304; 334] 0.
Definition days_in_month (month : Z) : Z :=
  nth (Z.to_nat month) [0; 31; 28; 31; 30; 31; 30; 31; 31; 30; 31; 30; 31] 0.

(** The standard library's conversion of a day number to
    (year, month, day). *)
Definition ord2ymd (n0 : Z) : Z * Z * Z :=
  let n := n0 - 1 in
  let n400 := n / 146097 in
  let n := n mod 146097 in
  let year := n400 * 400 + 1 in
  let n100 := n / 36524 in
  let n := n mod 36524 in
  let n4 := n / 1461 in
  let n := n mod 1461 in
  let n1 := n / 365 in
  let n := n mod 365 in
  let year := year + n100 * 100 + n4 * 4 + n1 in
  if (n1 =? 4) || (n100 =? 4) then (year - 1, 12, 31)
  else
    let leapyear := (n1 =? 3) && (negb (n4 =? 24) || (n100 =? 3)) in
    let month := Z.shiftr (n + 50) 5 in
    let preceding :=
      days_before_month month
      + (if (2 <? month) && leapyear then 1 else 0) in
    if n <? preceding then
      let month := month - 1 in
      let preceding :=
        preceding
        - (days_in_month month
           + (if (month =? 2) && leapyear then 1 else 0)) in
      (year, month, n - preceding + 1)
    else (year, month, n - preceding + 1).

Definition digit (z : Z) : ascii := ascii_of_N (48 + Z.to_N (z mod 10)).
Definition two_digits (z : Z) : string :=
  String (digit (z / 10)) (String (digit z) "").
Definition four_digits (z : Z) : string :=
  String (digit (z / 1000)) (String (digit (z / 100)) (two_digits z)).
Definition six_digits (z : Z) : string :=
  two_digits (z / 10000) ++ two_digits (z / 100) ++ two_digits z.

(** [dt.strftime("%Y-%m-%d")], for a year of four digits. *)
Definition strftime_ymd (dt : datetime) : string :=
  let '(y, m, d) := ord2ymd (ordinal dt) in
  four_digits y ++ "-" ++ two_digits m ++ "-" ++ two_digits d.

(** [dt.isoformat()]: the fraction is printed only when it is not zero. *)
Definition isoformat (dt : datetime) : string :=
  let us := microsecond_of_day dt in
  let s := us / 1000000 in
  strftime_ymd dt ++ "T" ++ two_digits (s / 3600) ++ ":"
    ++ two_digits (s / 60 mod 60) ++ ":" ++ two_digits (s mod 60)
    ++ (if us mod 1000000 =? 0 then "" else "." ++ six_digits (us mod 1000000)).

End Datetime.
Export Datetime(datetime).

(* ===================================================================== *)
(** * models.py                                                            *)
(* ===================================================================== *)

Module Models.

Record FoodItem : Type := mkFoodItem {
  name : string;
  calories_per_serving : float;
  standard_serving_size : float;
  unit : string
}.

(** One logged meal. [id] is [None] before the row is inserted. *)
Record UserLog : Type := mkUserLog {
  id : option Z;
  date : string;
  meal_type : string;
  food_name : string;
  calories : float;
  serving_size : string;
  notes : option string;
  timestamp : datetime
}.

End Models.
Export Models(UserLog).

(* ===================================================================== *)
(** * calculator.py                                                        *)
(* ===================================================================== *)

(** The [try] block of [calculate_calories_for_serving]: the three
    conversions in source order; the first one that raises ends the block. *)
Definition convert_arguments (calories_per_serving standard_serving_size
                              user_serving_size : PyValue)
  : outcome (float * float * float) :=
  match py_float calories_per_serving with
  | Raised e => Raised e
  | Returned cal =>
      match py_float standard_serving_size with
      | Raised e => Raised e
      | Returned std_size =>
          match py_float user_serving_size with
          | Raised e => Raised e
          | Returned user_size => Returned (cal, std_size, user_size)
          end
      end
  end.

(** [calculate_calories_for_serving]. The handler [except (TypeError,
    ValueError)] re-raises both as [ValueError]; any other exception leaves
    the function as it is. [std_size == 0] is the float comparison, true of
    both zeros. *)
Definition calculate_calories_for_serving
    (calories_per_serving standard_serving_size user_serving_size : PyValue)
  : outcome float :=
  match convert_arguments calories_per_serving standard_serving_size
                          user_serving_size with
  | Raised TypeError | Raised ValueError => Raised ValueError
  | Raised e => Raised e
  | Returned (cal, std_size, user_size) =>
      if Float.eqb std_size (Float.of_Z 0)
      then Raised ZeroDivisionError
      else Returned (Float.mul (Float.div cal std_size) user_size)
  end.

(** [filter_logs_by_meal_type]: the list comprehension walks [logs] in
    order and keeps the entries whose lowered meal type equals the lowered
    query. *)
Fixpoint filter_logs_by_meal_type (logs : list UserLog) (meal_type : string)
  : list UserLog :=
  let meal_type_lower := Str.lower meal_type in
  match logs with
  | [] => []
  | log :: rest =>
      if String.eqb (Str.lower (Models.meal_type log)) meal_type_lower
      then log :: filter_logs_by_meal_type rest meal_type
      else filter_logs_by_meal_type rest meal_type
  end.

(* ===================================================================== *)
(** * The SQLite database behind [DatabaseManager]                         *)
(* ===================================================================== *)

Module Meals.
(** A row of the table [meals]; the two nullable columns are options. *)
Record row : Type := mkRow {
  id : Z;
  date : string;
  meal_type : string;
  food_name : string;
  calories : float;
  serving_size : option string;
  notes : option string;
  timestamp : string
}.
End Meals.

Module Users.
(** A row of the table [users]; [target_calories] has a default but no
    NOT NULL constraint. *)
Record row : Type := mkRow {
  id : Z;
  name : string;
  target_calories : option Z
}.
End Users.

Module Sqlite.

(** The content of a database file: each table is [None] until it is
    created, and holds its rows in rowid order. [meals_sequence] is the
    AUTOINCREMENT counter of [meals] (the largest id ever handed out). *)
Record database : Type := mkDatabase {
  meals : option (list Meals.row);
  meals_sequence : Z;
  users : option (list Users.row)
}.

(** A new, empty database file. *)
Definition empty : database := mkDatabase None 0 None.

(** A statement either fails with an [sqlite3.Error] ([None]) or yields
    its result and the database after it. *)
Definition statement (A : Type) : Type := database -> option (A * database).

(** Stable [ORDER BY]: [leb a b] says that [a] may come before [b]. Rows
    that compare equal keep their table order. *)
Fixpoint insert_by {A : Type} (leb : A -> A -> bool) (x : A) (l : list A)
  : list A :=
  match l with
  | [] => [x]
  | y :: l' => if leb x y then x :: l else y :: insert_by leb x l'
  end.
Fixpoint order_by {A : Type} (leb : A -> A -> bool) (l : list A) : list A :=
  match l with
  | [] => []
  | x :: l' => insert_by leb x (order_by leb l')
  end.

(** CREATE TABLE IF NOT EXISTS meals (...) *)
Definition CREATE_TABLE_meals : statement unit := fun db =>
  match meals db with
  | Some _ => Some (tt, db)
  | None => Some (tt, mkDatabase (Some []) 0 (users db))
  end.

(** CREATE TABLE IF NOT EXISTS users (...) *)
Definition CREATE_TABLE_users : statement unit := fun db =>
  match users db with
  | Some _ => Some (tt, db)
  | None => Some (tt, mkDatabase (meals db) (meals_sequence db) (Some []))
  end.

(** SELECT COUNT( * ) FROM users *)
Definition SELECT_COUNT_users : statement Z := fun db =>
  match users db with
  | Some rows => Some (Z.of_nat (List.length rows), db)
  | None => None
  end.

(** The rowid of a new row of [users]: one more than the largest. *)
Definition next_rowid (rows : list Users.row) : Z :=
  match rows with
  | [] => 1
  | r :: rest => fold_left Z.max (map Users.id rest) (Users.id r) + 1
  end.

(** INSERT INTO users (name, target_calories) VALUES (?, ?) *)
Definition INSERT_users (name : string) (target_calories : Z)
  : statement unit := fun db =>
  match users db with
  | Some rows =>
      let r := Users.mkRow (next_rowid rows) name (Some target_calories) in
      Some (tt, mkDatabase (meals db) (meals_sequence db) (Some (rows ++ [r])%list))
  | None => None
  end.

(** The value a REAL column gives back for a float written to it. A float
    with an integral value is kept as that integer, so a negative zero
    comes back as [0.0]; every other float comes back as it was written. *)
Definition stored_real (x : float) : float :=
  match x with
  | S754_zero _ => S754_zero false
  | _ => x
  end.

(** INSERT INTO meals (date, ..., timestamp) VALUES (?, ?, ?, ?, ?, ?, ?).
    The new id is one more than the largest id the table has ever held.
    SQLite stores a NaN as NULL, which the NOT NULL constraint on
    [calories] rejects. *)
Definition INSERT_meals (date meal_type food_name : string) (calories : float)
    (serving_size notes timestamp : string) : statement unit := fun db =>
  match meals db with
  | Some rows =>
      if Float.is_nan calories then None
      else
        let new_id :=
          fold_left Z.max (map Meals.id rows) (meals_sequence db) + 1 in
        let r := Meals.mkRow new_id date meal_type food_name
                             (stored_real calories)
                             (Some serving_size) (Some notes) timestamp in
        Some (tt, mkDatabase (Some (rows ++ [r])%list) new_id (users db))
  | None => None
  end.

(** SELECT id, meal_type, food_name, calories, serving_size, notes,
    timestamp FROM meals WHERE date = ? ORDER BY timestamp ASC *)
Definition SELECT_meals_by_date (date : string)
  : statement (list (Z * string * string * float * option string
                     * option string * string)) := fun db =>
  match meals db with
  | Some rows =>
      let hits := filter (fun r => String.eqb (Meals.date r) date) rows in
      let sorted :=
        order_by (fun a b => String.leb (Meals.timestamp a) (Meals.timestamp b))
                 hits in
      Some (map (fun r => (Meals.id r, Meals.meal_type r, Meals.food_name r,
                           Meals.calories r, Meals.serving_size r,
                           Meals.notes r, Meals.timestamp r)) sorted, db)
  | None => None
  end.

(** [a] before [b] under ORDER BY date DESC, timestamp DESC. *)
Definition date_desc_timestamp_desc (a b : Meals.row) : bool :=
  String.ltb (Meals.date b) (Meals.date a)
  || (String.eqb (Meals.date a) (Meals.date b)
      && String.leb (Meals.timestamp b) (Meals.timestamp a)).

(** SELECT id, date, meal_type, food_name, calories, serving_size, notes,
    timestamp FROM meals ORDER BY date DESC, timestamp DESC *)
Definition SELECT_all_meals
  : statement (list (Z * string * string * string * float * option string
                     * option string * string)) := fun db =>
  match meals db with
  | Some rows =>
      Some (map (fun r => (Meals.id r, Meals.date r, Meals.meal_type r,
                           Meals.food_name r, Meals.calories r,
                           Meals.serving_size r, Meals.notes r,
                           Meals.timestamp r))
                (order_by date_desc_timestamp_desc rows), db)
  | None => None
  end.

(** The SET clause of the UPDATE applied to one row. *)
Definition set_fields (meal_type food_name : string) (calories : float)
    (serving_size notes : string) (r : Meals.row) : Meals.row :=
  Meals.mkRow (Meals.id r) (Meals.date r) meal_type food_name
              (stored_real calories)
              (Some serving_size) (Some notes) (Meals.timestamp r).

(** UPDATE meals SET meal_type = ?, food_name = ?, calories = ?,
    serving_size = ?, notes = ? WHERE id = ?, once its parameters are
    bound (whether the id can be bound is decided before the statement
    runs, in [execute_with_id] below). The NOT NULL constraint on
    [calories] is checked on the rows that are written, so a NaN fails
    exactly when some row has the id. *)
Definition UPDATE_meals (meal_type food_name : string) (calories : float)
    (serving_size notes : string) (meal_id : Z) : statement unit := fun db =>
  match meals db with
  | Some rows =>
      if Float.is_nan calories
         && existsb (fun r => Meals.id r =? meal_id) rows
      then None
      else
        Some (tt, mkDatabase
                    (Some (map (fun r =>
                                  if Meals.id r =? meal_id
                                  then set_fields meal_type food_name calories
                                                  serving_size notes r
                                  else r) rows))
                    (meals_sequence db) (users db))
  | None => None
  end.

(** DELETE FROM meals WHERE id = ?, once the id is bound. *)
Definition DELETE_meals (meal_id : Z) : statement unit := fun db =>
  match meals db with
  | Some rows =>
      Some (tt, mkDatabase
                  (Some (filter (fun r => negb (Meals.id r =? meal_id)) rows))
                  (meals_sequence db) (users db))
  | None => None
  end.

(** The floating-point sum of a column, added up in row order. *)
Definition sum_real (values : list float) : float :=
  fold_left Float.add values Float.zero.

(** SELECT SUM(calories) FROM meals WHERE date = ?: NULL when no row has
    the date, otherwise the floating-point sum of the column; a sum that
    is a NaN (an infinity added to the opposite one) is given back as
    NULL. The sum is taken as the plain left-to-right addition; the last
    bits of a sum of many terms depend on the summation the library
    version uses. *)
Definition SELECT_SUM_calories (date : string) : statement (option float) :=
  fun db =>
  match meals db with
  | Some rows =>
      match filter (fun r => String.eqb (Meals.date r) date) rows with
      | [] => Some (None, db)
      | hits =>
          let total := sum_real (map Meals.calories hits) in
          Some (if Float.is_nan total then None else Some total, db)
      end
  | None => None
  end.

(** SELECT target_calories FROM users WHERE id = 1 *)
Definition SELECT_target_calories : statement (list (option Z)) := fun db =>
  match users db with
  | Some rows =>
      Some (map Users.target_calories
                (filter (fun r => Users.id r =? 1) rows), db)
  | None => None
  end.

End Sqlite.

(* ===================================================================== *)
(** * ui.py: [DatabaseManager]                                             *)
(* ===================================================================== *)

(** What the path [db_name] denotes when SQLite is asked to open it. *)
Inductive file_state : Type :=
  | Unopenable                      (* [sqlite3.connect] raises *)
  | NotADatabase                    (* opens, but every statement raises *)
  | Database (db : Sqlite.database).

(** An [sqlite3.Connection] object is either open or closed. *)
Inductive Connection : Type :=
  | Open
  | Closed.

(** The manager object together with the file its [db_name] denotes.
    [connection] is the attribute [self.connection]: [None] until
    [sqlite3.connect] has returned. Every statement of the class is
    committed before the method returns and there is a single writer, so
    the connection reads and writes [file] directly. *)
Record DatabaseManager : Type := mkDatabaseManager {
  connection : option Connection;
  file : file_state
}.

(** A method body: it runs on the manager, returns or raises, and leaves
    the manager behind in both cases. *)
Definition method (A : Type) : Type :=
  DatabaseManager -> outcome A * DatabaseManager.

Definition ret {A : Type} (a : A) : method A := fun self => (Returned a, self).
Definition raise {A : Type} (e : exn) : method A := fun self => (Raised e, self).
Definition bind {A B : Type} (m : method A) (k : A -> method B) : method B :=
  fun self =>
    match m self with
    | (Returned a, self') => k a self'
    | (Raised e, self') => (Raised e, self')
    end.

Declare Scope method_scope.
Delimit Scope method_scope with method.
Notation "x <- m ;; k" := (bind m (fun x => k))
  (at level 100, m at next level, right associativity) : method_scope.
Notation "m ;; k" := (bind m (fun _ => k))
  (at level 100, right associativity) : method_scope.
Open Scope method_scope.

(** [try: body except sqlite3.Error as error: handler]. Any other
    exception passes through. *)
Definition try_except_sqlite3 {A : Type} (body handler : method A) : method A :=
  fun self =>
    match body self with
    | (Raised Sqlite3Error, self') => handler self'
    | result => result
    end.

(** [self.connection = sqlite3.connect(self.db_name)] *)
Definition connect : method unit := fun self =>
  match file self with
  | Unopenable => (Raised Sqlite3Error, self)
  | _ => (Returned tt, mkDatabaseManager (Some Open) (file self))
  end.

(** [self.connection.cursor()] and [self.connection.commit()]: attribute
    access on [None] is an [AttributeError]; a closed connection raises
    [sqlite3.ProgrammingError]. *)
Definition use_connection : method unit := fun self =>
  match connection self with
  | None => (Raised AttributeError, self)
  | Some Closed => (Raised Sqlite3Error, self)
  | Some Open => (Returned tt, self)
  end.
Definition cursor : method unit := use_connection.
Definition commit : method unit := use_connection.

(** [cursor.execute(statement, parameters)] followed by the fetch of its
    result. *)
Definition execute {A : Type} (stmt : Sqlite.statement A) : method A :=
  fun self =>
    match file self with
    | Database db =>
        match stmt db with
        | Some (a, db') =>
            (Returned a, mkDatabaseManager (connection self) (Database db'))
        | None => (Raised Sqlite3Error, self)
        end
    | _ => (Raised Sqlite3Error, self)
    end.

(** An integer that SQLite can hold: the signed 64-bit range. *)
Definition fits_int64 (z : Z) : bool := (- 2 ^ 63 <=? z) && (z <? 2 ^ 63).

(** [cursor.execute(statement, (..., meal_id))] for a statement on the
    table [meals] that takes an id as a parameter. The statement is
    prepared first, which is an [sqlite3.Error] when the file is no
    database or has no table [meals]; then the parameters are bound, and
    binding an integer outside the signed 64-bit range raises
    [OverflowError], which is no [sqlite3.Error]; then the statement runs.
    The id of a stored row is an SQLite INTEGER and so lies inside the
    range: an id that some row holds is taken to bind. *)
Definition execute_with_id {A : Type} (meal_id : Z)
    (stmt : Sqlite.statement A) : method A :=
  fun self =>
    match file self with
    | Database db =>
        match Sqlite.meals db with
        | Some rows =>
            if fits_int64 meal_id
               || existsb (fun r => Meals.id r =? meal_id) rows
            then execute stmt self
            else (Raised OverflowError, self)
        | None => (Raised Sqlite3Error, self)
        end
    | _ => (Raised Sqlite3Error, self)
    end.

(** [fetchone()] on the rows of a SELECT. *)
Definition fetchone {A : Type} (rows : list A) : option A := hd_error rows.

(** [initialize_database]. The handler prints and shows a message box,
    and the method returns [None] either way. *)
Definition initialize_database : method unit :=
  try_except_sqlite3
    (connect ;;
     cursor ;;
     execute Sqlite.CREATE_TABLE_meals ;;
     execute Sqlite.CREATE_TABLE_users ;;
     count <- execute Sqlite.SELECT_COUNT_users ;;
     (if count =? 0
      then execute (Sqlite.INSERT_users "User" 2000)
      else ret tt) ;;
     commit ;;
     ret tt)
    (ret tt).

(** [DatabaseManager.__init__]: the manager over a given file. *)
Definition init (f : file_state) : DatabaseManager :=
  snd (initialize_database (mkDatabaseManager None f)).

(** [create_meal]; [now] is the value of [datetime.now()] in the body. *)
Definition create_meal (now : datetime)
    (date meal_type food_name : string) (calories : float)
    (serving_size notes : string) : method bool :=
  try_except_sqlite3
    (cursor ;;
     let timestamp := Datetime.isoformat now in
     execute (Sqlite.INSERT_meals date meal_type food_name calories
                                  serving_size notes timestamp) ;;
     commit ;;
     ret true)
    (ret false).

Definition read_meals_by_date (date : string)
  : method (list (Z * string * string * float * option string
                  * option string * string)) :=
  try_except_sqlite3
    (cursor ;;
     rows <- execute (Sqlite.SELECT_meals_by_date date) ;;
     ret rows)
    (ret []).

Definition read_all_meals
  : method (list (Z * string * string * string * float * option string
                  * option string * string)) :=
  try_except_sqlite3
    (cursor ;;
     rows <- execute Sqlite.SELECT_all_meals ;;
     ret rows)
    (ret []).

(** [update_meal]: the handler catches [sqlite3.Error] only, so the
    [OverflowError] of an id that cannot be bound leaves the method. *)
Definition update_meal (meal_id : Z) (meal_type food_name : string)
    (calories : float) (serving_size notes : string) : method bool :=
  try_except_sqlite3
    (cursor ;;
     execute_with_id meal_id
       (Sqlite.UPDATE_meals meal_type food_name calories
                            serving_size notes meal_id) ;;
     commit ;;
     ret true)
    (ret false).

(** [delete_meal], with the same handler. *)
Definition delete_meal (meal_id : Z) : method bool :=
  try_except_sqlite3
    (cursor ;;
     execute_with_id meal_id (Sqlite.DELETE_meals meal_id) ;;
     commit ;;
     ret true)
    (ret false).

(** [get_daily_calories]: [result] is the single column of the single
    row; [float(result) if result else 0.0]. *)
Definition get_daily_calories (date : string) : method float :=
  try_except_sqlite3
    (cursor ;;
     result <- execute (Sqlite.SELECT_SUM_calories date) ;;
     ret (match result with
          | Some total => if Float.truthy total then total else Float.zero
          | None => Float.zero
          end))
    (ret Float.zero).

(** The loop of [get_weekly_data] over the remaining indices. [now i] is
    the value [datetime.now()] returns in the iteration with index [i];
    the clock is read anew in every iteration. *)
Fixpoint weekly_loop (now : Z -> datetime) (indices : list Z)
    (weekly_data : list (string * float)) : method (list (string * float)) :=
  match indices with
  | [] => ret weekly_data
  | i :: rest =>
      let date := Datetime.strftime_ymd (Datetime.minus_days (now i) i) in
      calories <- get_daily_calories date ;;
      weekly_loop now rest (weekly_data ++ [(date, calories)])%list
  end.

(** [get_weekly_data]: [for i in range(6, -1, -1)]. *)
Definition get_weekly_data (now : Z -> datetime)
  : method (list (string * float)) :=
  weekly_loop now [6; 5; 4; 3; 2; 1; 0] [].

(** [get_target_calories]: [int(result[0]) if result else 2000]; [int] of
    a NULL column is a [TypeError]. *)
Definition get_target_calories : method Z :=
  try_except_sqlite3
    (cursor ;;
     rows <- execute Sqlite.SELECT_target_calories ;;
     match fetchone rows with
     | Some (Some target) => ret target
     | Some None => raise TypeError
     | None => ret 2000
     end)
    (ret 2000).

(** [close]: [if self.connection: self.connection.close()]. *)
Definition close : method unit := fun self =>
  match connection self with
  | Some _ => (Returned tt, mkDatabaseManager (Some Closed) (file self))
  | None => (Returned tt, self)
  end.

(* ===================================================================== *)
(** * ui.py: the logic of [CalQApp] behind the widgets                     *)
(* ===================================================================== *)

From Stdlib Require Import Sorting.Sorted Structures.OrderedTypeEx.

(** [s.strip()] on ASCII text. *)
Definition py_strip (s : string) : string :=
  string_of_list_ascii (FloatParse.strip (list_ascii_of_string s)).

(** [not s] for a string: true of the empty string only. *)
Definition is_empty (s : string) : bool :=
  match s with
  | EmptyString => true
  | String _ _ => false
  end.

(** [a < b] and [a <= b] on floats; false when either side is a NaN. *)
Definition float_ltb (a b : float) : bool := SFltb a b.
Definition float_leb (a b : float) : bool := SFleb a b.

(** The attributes of [CalQApp] that its handlers read and write: the
    manager and [editing_meal_id], which is [None] unless an entry is
    being edited. Widgets, message boxes and the rendering of the views
    are not part of this state. *)
Record CalQApp : Type := mkCalQApp {
  db : DatabaseManager;
  editing_meal_id : option Z
}.

(** The texts in the six fields of the add/edit form when it is
    submitted. *)
Record meal_form : Type := mkMealForm {
  entry_date : string;
  entry_meal_type : string;
  entry_food_name : string;
  entry_calories : string;
  entry_serving_size : string;
  entry_notes : string
}.

(** A row as [read_meals_by_date] returns it:
    (id, meal_type, food_name, calories, serving_size, notes, timestamp). *)
Definition meal_of_day : Type :=
  (Z * string * string * float * option string * option string * string)%type.

(** A row as [read_all_meals] returns it:
    (id, date, meal_type, food_name, calories, serving_size, notes,
    timestamp). *)
Definition logged_meal : Type :=
  (Z * string * string * string * float * option string * option string
   * string)%type.

(** [meal[0]] of a row of the full log: its id. *)
Definition logged_meal_id (meal : logged_meal) : Z :=
  let '(i, _, _, _, _, _, _, _) := meal in i.

(** [meal[1]] of a row of the full log: its date. *)
Definition logged_meal_date (meal : logged_meal) : string :=
  let '(_, date, _, _, _, _, _, _) := meal in date.

(** [show_dashboard], as far as the state goes: the edit is over. *)
Definition show_dashboard (app : CalQApp) : CalQApp :=
  mkCalQApp (db app) None.

(** [edit_meal]: remember the id, then show the form. *)
Definition edit_meal (meal_id : Z) (app : CalQApp) : CalQApp :=
  mkCalQApp (db app) (Some meal_id).

(** [cancel_edit] *)
Definition cancel_edit (app : CalQApp) : CalQApp :=
  show_dashboard (mkCalQApp (db app) None).

(** The inner [try] of the two submit handlers:
    [calories = float(calories_str)], then [if calories < 0: raise
    ValueError]; [None] is the [except ValueError] branch. *)
Definition parse_calories (calories_str : string) : option float :=
  match FloatParse.float_of_string calories_str with
  | Some calories =>
      if float_ltb calories (Float.of_Z 0) then None else Some calories
  | None => None
  end.

(** [create_meal_submit]. With an empty food name or calories text, or a
    calories text that is not a number >= 0, an error box is shown and the
    handler returns. Otherwise [create_meal] is called; when it returns
    [True] the dashboard is shown. An exception of [create_meal] is caught
    by the outer handler, which shows an error box. *)
Definition create_meal_submit (now : datetime) (form : meal_form)
    (app : CalQApp) : CalQApp :=
  let date := py_strip (entry_date form) in
  let meal_type := entry_meal_type form in
  let food_name := py_strip (entry_food_name form) in
  let calories_str := py_strip (entry_calories form) in
  let serving_size := py_strip (entry_serving_size form) in
  let notes := py_strip (entry_notes form) in
  if is_empty food_name || is_empty calories_str then app
  else
    match parse_calories calories_str with
    | None => app
    | Some calories =>
        match create_meal now date meal_type food_name calories
                          serving_size notes (db app) with
        | (Returned true, db') =>
            show_dashboard (mkCalQApp db' (editing_meal_id app))
        | (_, db') => mkCalQApp db' (editing_meal_id app)
        end
    end.

(** UPDATE meals SET ... WHERE id = NULL: the comparison holds for no
    row, so no row is written. *)
Definition UPDATE_meals_no_row : Sqlite.statement unit := fun db =>
  match Sqlite.meals db with
  | Some _ => Some (tt, db)
  | None => None
  end.

(** [update_meal] called with [self.editing_meal_id], which is bound as
    NULL when it is [None]. *)
Definition update_meal_optional (meal_id : option Z)
    (meal_type food_name : string) (calories : float)
    (serving_size notes : string) : method bool :=
  match meal_id with
  | Some i => update_meal i meal_type food_name calories serving_size notes
  | None =>
      try_except_sqlite3
        (cursor ;;
         execute UPDATE_meals_no_row ;;
         commit ;;
         ret true)
        (ret false)
  end.

(** [update_meal_submit]: the same checks as [create_meal_submit]; on
    success [editing_meal_id] is cleared and the dashboard is shown. *)
Definition update_meal_submit (form : meal_form) (app : CalQApp) : CalQApp :=
  let meal_type := entry_meal_type form in
  let food_name := py_strip (entry_food_name form) in
  let calories_str := py_strip (entry_calories form) in
  let serving_size := py_strip (entry_serving_size form) in
  let notes := py_strip (entry_notes form) in
  if is_empty food_name || is_empty calories_str then app
  else
    match parse_calories calories_str with
    | None => app
    | Some calories =>
        match update_meal_optional (editing_meal_id app) meal_type food_name
                                   calories serving_size notes (db app) with
        | (Returned true, db') => show_dashboard (mkCalQApp db' None)
        | (_, db') => mkCalQApp db' (editing_meal_id app)
        end
    end.

(** [delete_meal_confirm]; [confirmed] is the answer to the yes/no box.
    There is no handler here: an exception of [delete_meal] leaves the
    method, with the state as it is. *)
Definition delete_meal_confirm (confirmed : bool) (meal_id : Z)
    (app : CalQApp) : CalQApp :=
  if confirmed then
    match delete_meal meal_id (db app) with
    | (Returned true, db') =>
        show_dashboard (mkCalQApp db' (editing_meal_id app))
    | (_, db') => mkCalQApp db' (editing_meal_id app)
    end
  else app.

(** [load_meal_data], up to the unpacking of [meal_data]: the first row of
    [read_all_meals] whose id is [editing_meal_id], or [None]. *)
Definition load_meal_data (app : CalQApp)
  : outcome (option logged_meal) * CalQApp :=
  match read_all_meals (db app) with
  | (Returned meals, db') =>
      (Returned
         (find (fun meal =>
                  match editing_meal_id app with
                  | Some i => logged_meal_id meal =? i
                  | None => false
                  end) meals),
       mkCalQApp db' (editing_meal_id app))
  | (Raised e, db') => (Raised e, mkCalQApp db' (editing_meal_id app))
  end.

(* ===================================================================== *)
(** * Vocabulary of the properties                                        *)
(* ===================================================================== *)

(** An argument that is not a number: its conversion raises the
    [TypeError] or [ValueError] that the handler catches. *)
Definition non_numeric (x : PyValue) : Prop :=
  py_float x = Raised TypeError \/ py_float x = Raised ValueError.

(** An argument that [float()] converts. *)
Definition numeric (x : PyValue) : Prop :=
  exists f, py_float x = Returned f.

(** The claim C3 as it is worded: a zero standard serving size gives
    [ZeroDivisionError] whatever the other two arguments are. *)
Definition zero_size_always_divides_by_zero : Prop :=
  forall c u : PyValue,
    calculate_calories_for_serving c (PyInt 0) u = Raised ZeroDivisionError.

(** The claim C9 as it is worded: one non-numeric argument is enough for
    the call to raise [ValueError]. *)
Definition non_numeric_always_invalid_input : Prop :=
  forall c s u : PyValue,
    non_numeric c \/ non_numeric s \/ non_numeric u ->
    calculate_calories_for_serving c s u = Raised ValueError.

(** A text of ASCII characters, as a proposition. *)
Definition ascii_text (s : string) : Prop := Str.is_ascii s = true.

(** Two ASCII characters are the same letter when they are equal or one
    is a capital A..Z (codes 65..90) and the other the small letter of it,
    32 codes further. *)
Definition same_letter (a b : ascii) : Prop :=
  let x := N_of_ascii a in
  let y := N_of_ascii b in
  (x = y
   \/ (65 <= x <= 90 /\ y = x + 32)
   \/ (65 <= y <= 90 /\ x = y + 32))%N.

(** Equality of strings up to letter case, character by character. *)
Inductive equal_up_to_case : string -> string -> Prop :=
  | equal_up_to_case_empty : equal_up_to_case "" ""
  | equal_up_to_case_letter (a b : ascii) (s t : string) :
      same_letter a b ->
      equal_up_to_case s t ->
      equal_up_to_case (String a s) (String b t).

(** [l] is [l'] with some elements left out, the others in place. *)
Inductive subsequence {A : Type} : list A -> list A -> Prop :=
  | subsequence_nil : subsequence [] []
  | subsequence_skip (x : A) (l l' : list A) :
      subsequence l l' -> subsequence l (x :: l')
  | subsequence_keep (x : A) (l l' : list A) :
      subsequence l l' -> subsequence (x :: l) (x :: l').

(** Three logged entries, two of them breakfasts spelled differently. *)
Definition sample_logs : list UserLog :=
  [ Models.mkUserLog (Some 1) "2024-01-01" "Breakfast" "Oats" (Float.of_Z 150)
                     "1 bowl" None (Datetime.mkDatetime 738886 28800000000);
    Models.mkUserLog (Some 2) "2024-01-01" "Lunch" "Rice" (Float.of_Z 200)
                     "" None (Datetime.mkDatetime 738886 43200000000);
    Models.mkUserLog (Some 3) "2024-01-02" "BREAKFAST" "Eggs" (Float.of_Z 90)
                     "2" (Some "boiled") (Datetime.mkDatetime 738887 28800000000) ].

(** A manager whose connection is open on a database file in which the
    table [meals] exists. *)
Definition open_store (rows : list Meals.row) (sequence : Z)
    (users : option (list Users.row)) : DatabaseManager :=
  mkDatabaseManager (Some Open)
                    (Database (Sqlite.mkDatabase (Some rows) sequence users)).

(** An id that can be handed to a statement on the given rows: it lies in
    the signed 64-bit range, or some row holds it. *)
Definition bindable (meal_id : Z) (rows : list Meals.row) : bool :=
  fits_int64 meal_id || existsb (fun r => Meals.id r =? meal_id) rows.

(** The id column of a tuple returned by [read_all_meals]. *)
Definition listed_id (t : Z * string * string * string * float * option string
                          * option string * string) : Z :=
  let '(i, _, _, _, _, _, _, _) := t in i.

(** Two stored meals, with ids 1 and 2. *)
Definition sample_rows : list Meals.row :=
  [ Meals.mkRow 1 "2024-01-01" "Lunch" "Rice" (Float.of_Z 200)
                (Some "") (Some "") "2024-01-01T12:00:00";
    Meals.mkRow 2 "2024-01-01" "Dinner" "Soup" (Float.of_Z 50)
                (Some "1 bowl") (Some "") "2024-01-01T19:30:00" ].

(** The settings row that [initialize_database] inserts. *)
Definition default_user : Users.row := Users.mkRow 1 "User" (Some 2000).

(** One more call of [initialize_database] on the same manager. *)
Definition reinitialize (self : DatabaseManager) : DatabaseManager :=
  snd (initialize_database self).

(** An outcome that carries the storage error to the caller. *)
Definition is_storage_error {A : Type} (r : outcome A) : Prop :=
  r = Raised Sqlite3Error.

(** For the methods that return a success flag, [False] also reports the
    failure. *)
Definition is_storage_failure (r : outcome bool) : Prop :=
  r = Raised Sqlite3Error \/ r = Returned false.

(** The claim C2 as it is worded: after the store failed to open, every
    operation reports a storage error, and no read returns a default. *)
Definition failed_store_operations_fail : Prop :=
  forall f : file_state,
    f = Unopenable \/ f = NotADatabase ->
    forall (now : datetime) (date meal_type food_name : string)
           (calories : float) (serving_size notes : string) (meal_id : Z),
      let self := init f in
      is_storage_error (fst (read_meals_by_date date self))
      /\ is_storage_error (fst (read_all_meals self))
      /\ is_storage_error (fst (get_daily_calories date self))
      /\ is_storage_error (fst (get_target_calories self))
      /\ is_storage_failure
           (fst (create_meal now date meal_type food_name calories
                             serving_size notes self))
      /\ is_storage_failure
           (fst (update_meal meal_id meal_type food_name calories
                             serving_size notes self))
      /\ is_storage_failure (fst (delete_meal meal_id self)).

(** The claim C7 as it is worded: on an open store [delete_meal] succeeds
    for every id. *)
Definition delete_succeeds_for_every_id : Prop :=
  forall (rows : list Meals.row) (sequence : Z)
         (users : option (list Users.row)) (meal_id : Z),
    fst (delete_meal meal_id (open_store rows sequence users)) = Returned true.

(** The claim C10 as it is worded: on an open store [update_meal] reports
    success for every id that no stored entry has. *)
Definition update_succeeds_for_every_unknown_id : Prop :=
  forall (rows : list Meals.row) (sequence : Z)
         (users : option (list Users.row)) (meal_id : Z)
         (meal_type food_name : string) (calories : float)
         (serving_size notes : string),
    (forall r, In r rows -> Meals.id r <> meal_id) ->
    fst (update_meal meal_id meal_type food_name calories serving_size notes
                     (open_store rows sequence users))
    = Returned true.

(** The dates of the seven days that end with day number [today], oldest
    first. *)
Definition week_ending (today : Z) : list string :=
  map (fun i => Datetime.strftime_ymd (Datetime.mkDatetime (today - i) 0))
      [6; 5; 4; 3; 2; 1; 0].

(** The total [get_daily_calories] reports for [date] over the rows of
    [meals]: 0.0 when no row has the date, or the sum is a zero or a
    NaN. *)
Definition daily_total (rows : list Meals.row) (date : string) : float :=
  match filter (fun r => String.eqb (Meals.date r) date) rows with
  | [] => Float.zero
  | hits =>
      let total := Sqlite.sum_real (map Meals.calories hits) in
      if Float.is_nan total then Float.zero
      else if Float.truthy total then total else Float.zero
  end.

(** A clock that passes midnight between the iterations with index 3 and
    2: 23:59:59.999999 on 2024-01-05, then 00:00:00.000001 on
    2024-01-06. *)
Definition midnight_clock (i : Z) : datetime :=
  if 3 <=? i
  then Datetime.mkDatetime 738890 86399999999
  else Datetime.mkDatetime 738891 1.

(** The result tuples of the two SELECTs for a stored row. *)
Definition as_meal_of_day (r : Meals.row) : meal_of_day :=
  (Meals.id r, Meals.meal_type r, Meals.food_name r, Meals.calories r,
   Meals.serving_size r, Meals.notes r, Meals.timestamp r).

Definition as_logged_meal (r : Meals.row) : logged_meal :=
  (Meals.id r, Meals.date r, Meals.meal_type r, Meals.food_name r,
   Meals.calories r, Meals.serving_size r, Meals.notes r, Meals.timestamp r).

(** [meal[6]] of a row of the day and [meal[7]] of a row of the full log:
    the timestamp. *)
Definition meal_of_day_timestamp (meal : meal_of_day) : string :=
  let '(_, _, _, _, _, _, timestamp) := meal in timestamp.

Definition logged_meal_timestamp (meal : logged_meal) : string :=
  let '(_, _, _, _, _, _, _, timestamp) := meal in timestamp.

(** The rows of [meals], the id counter and the rows of [users] in the
    file of a manager (empty, 0 when there is no such table). *)
Definition stored_meals (self : DatabaseManager) : list Meals.row :=
  match file self with
  | Database db =>
      match Sqlite.meals db with
      | Some rows => rows
      | None => []
      end
  | _ => []
  end.

Definition id_counter (self : DatabaseManager) : Z :=
  match file self with
  | Database db => Sqlite.meals_sequence db
  | _ => 0
  end.

Definition stored_users (self : DatabaseManager) : list Users.row :=
  match file self with
  | Database db =>
      match Sqlite.users db with
      | Some rows => rows
      | None => []
      end
  | _ => []
  end.

(** A call of one of the methods of [DatabaseManager]. *)
Inductive operation : Type :=
  | Initialize
  | CreateMeal (now : datetime) (date meal_type food_name : string)
               (calories : float) (serving_size notes : string)
  | ReadMealsByDate (date : string)
  | ReadAllMeals
  | UpdateMeal (meal_id : Z) (meal_type food_name : string)
               (calories : float) (serving_size notes : string)
  | DeleteMeal (meal_id : Z)
  | GetDailyCalories (date : string)
  | GetWeeklyData (now : Z -> datetime)
  | GetTargetCalories
  | Close.

(** The manager after the call, whether it returned or raised. *)
Definition perform (op : operation) (self : DatabaseManager) : DatabaseManager :=
  match op with
  | Initialize => snd (initialize_database self)
  | CreateMeal now date meal_type food_name calories serving_size notes =>
      snd (create_meal now date meal_type food_name calories serving_size
                       notes self)
  | ReadMealsByDate date => snd (read_meals_by_date date self)
  | ReadAllMeals => snd (read_all_meals self)
  | UpdateMeal meal_id meal_type food_name calories serving_size notes =>
      snd (update_meal meal_id meal_type food_name calories serving_size
                       notes self)
  | DeleteMeal meal_id => snd (delete_meal meal_id self)
  | GetDailyCalories date => snd (get_daily_calories date self)
  | GetWeeklyData now => snd (get_weekly_data now self)
  | GetTargetCalories => snd (get_target_calories self)
  | Close => snd (close self)
  end.

(** The manager after a sequence of calls. *)
Definition perform_all (ops : list operation) (self : DatabaseManager)
  : DatabaseManager :=
  fold_left (fun s op => perform op s) ops self.

(** The file of a store that was created by [initialize_database] and
    then only used through the methods: both tables exist, the settings
    are the single default row, the ids of the meals are distinct and lie
    between 1 and the id counter, and no calories value is a NaN. *)
Definition consistent (self : DatabaseManager) : Prop :=
  exists rows sequence,
    file self = Database (Sqlite.mkDatabase (Some rows) sequence
                                            (Some [default_user]))
    /\ 0 <= sequence
    /\ NoDup (map Meals.id rows)
    /\ (forall r, In r rows -> 1 <= Meals.id r <= sequence)
    /\ (forall r, In r rows -> Float.is_nan (Meals.calories r) = false).

(** What the user can do in the window, as far as the state goes. *)
Inductive ui_action : Type :=
  | SubmitCreate (now : datetime) (form : meal_form)
  | SubmitUpdate (form : meal_form)
  | ClickEdit (meal_id : Z)
  | ClickCancel
  | ClickDelete (confirmed : bool) (meal_id : Z)
  | ShowDashboard.

Definition ui_step (action : ui_action) (app : CalQApp) : CalQApp :=
  match action with
  | SubmitCreate now form => create_meal_submit now form app
  | SubmitUpdate form => update_meal_submit form app
  | ClickEdit meal_id => edit_meal meal_id app
  | ClickCancel => cancel_edit app
  | ClickDelete confirmed meal_id => delete_meal_confirm confirmed meal_id app
  | ShowDashboard => show_dashboard app
  end.

Definition ui_run (actions : list ui_action) (app : CalQApp) : CalQApp :=
  fold_left (fun a action => ui_step action a) actions app.

(** The application started over a new database file. *)
Definition new_app : CalQApp :=
  mkCalQApp (init (Database Sqlite.empty)) None.

(** A stored meal as the form is meant to produce it: a name that is not
    empty and calories that are a number not below zero. *)
Definition well_formed_meal (r : Meals.row) : Prop :=
  Meals.food_name r <> ""
  /\ float_leb (Float.of_Z 0) (Meals.calories r) = true.

(** Sample data for the examples: a creation time and two forms. *)
Definition sample_noon : datetime := Datetime.mkDatetime 738887 43200000000.

Definition sample_form : meal_form :=
  mkMealForm " 2024-01-02 " "Snacks" "  Nuts " " 10.5 " "1 handful" "salted
".

Definition negative_form : meal_form :=
  mkMealForm "2024-01-02" "Snacks" "Nuts" "-5" "" "".

(* ===================================================================== *)
(** * Properties of calculator.py                                          *)
(* ===================================================================== *)

Lemma convert_arguments_returned c s u fc fs fu :
  py_float c = Returned fc ->
  py_float s = Returned fs ->
  py_float u = Returned fu ->
  convert_arguments c s u = Returned (fc, fs, fu).
Proof.
  intros Hc Hs Hu. unfold convert_arguments. now rewrite Hc, Hs, Hu.
Qed.

(** When the first conversion that fails raises [e], the [try] block
    raises [e]. *)
Lemma convert_arguments_first_failure c s u e :
  py_float c = Raised e
  \/ (numeric c /\ py_float s = Raised e)
  \/ (numeric c /\ numeric s /\ py_float u = Raised e) ->
  convert_arguments c s u = Raised e.
Proof.
  unfold convert_arguments, numeric.
  intros [Hc | [[[fc Hc] Hs] | [[fc Hc] [[fs Hs] Hu]]]].
  - now rewrite Hc.
  - now rewrite Hc, Hs.
  - now rewrite Hc, Hs, Hu.
Qed.

(** C1. For arguments c, s, u that all convert to floats, with s not equal
    to zero, [calculate_calories_for_serving c s u] returns the float
    [(c / s) * u]. *)
Theorem calculate_calories_for_serving_formula (c s u : PyValue) (fc fs fu : float) :
  py_float c = Returned fc ->
  py_float s = Returned fs ->
  py_float u = Returned fu ->
  Float.eqb fs (Float.of_Z 0) = false ->
  calculate_calories_for_serving c s u
  = Returned (Float.mul (Float.div fc fs) fu).
Proof.
  intros Hc Hs Hu Hnz. unfold calculate_calories_for_serving.
  rewrite (convert_arguments_returned _ _ _ _ _ _ Hc Hs Hu).
  now rewrite Hnz.
Qed.

(** The inputs (100, 50, 75) yield 150.0. *)
Lemma calculate_calories_for_serving_formula_witness :
  calculate_calories_for_serving (PyInt 100) (PyInt 50) (PyInt 75)
  = Returned (Float.mul (Float.div (Float.of_Z 100) (Float.of_Z 50)) (Float.of_Z 75))
  /\ Float.mul (Float.div (Float.of_Z 100) (Float.of_Z 50)) (Float.of_Z 75)
     = Float.of_Z 150.
Proof.
  split.
  - apply (calculate_calories_for_serving_formula
             (PyInt 100) (PyInt 50) (PyInt 75)); reflexivity.
  - reflexivity.
Defined.

(** C3, counterexample. With a non-numeric first argument the conversion
    fails before the zero check is reached: ("abc", 0, 75) raises
    [ValueError]. *)
Lemma zero_size_non_numeric_counterexample :
  calculate_calories_for_serving (PyStr "abc") (PyInt 0) (PyInt 75)
  = Raised ValueError
  /\ ~ zero_size_always_divides_by_zero.
Proof.
  split; [reflexivity |].
  intros H. specialize (H (PyStr "abc") (PyInt 75)). discriminate H.
Qed.

(** C3, amended. When c and u convert to floats and s converts to a zero
    (0, 0.0, -0.0, "0", ...), the call raises [ZeroDivisionError], which is
    not the [ValueError] of invalid input. *)
Theorem calculate_calories_for_serving_zero_size (c s u : PyValue) (fs : float) :
  numeric c ->
  numeric u ->
  py_float s = Returned fs ->
  Float.eqb fs (Float.of_Z 0) = true ->
  calculate_calories_for_serving c s u = Raised ZeroDivisionError
  /\ calculate_calories_for_serving c s u <> Raised ValueError.
Proof.
  intros [fc Hc] [fu Hu] Hs Hz.
  assert (E : calculate_calories_for_serving c s u = Raised ZeroDivisionError).
  { unfold calculate_calories_for_serving.
    rewrite (convert_arguments_returned _ _ _ _ _ _ Hc Hs Hu).
    now rewrite Hz. }
  split; [exact E | rewrite E; discriminate].
Qed.

(** (100, "-0.0", 75.0) raises [ZeroDivisionError]. *)
Lemma calculate_calories_for_serving_zero_size_witness :
  calculate_calories_for_serving (PyInt 100) (PyStr "-0.0") (PyFloat (Float.of_Z 75))
  = Raised ZeroDivisionError
  /\ calculate_calories_for_serving (PyInt 100) (PyStr "-0.0") (PyFloat (Float.of_Z 75))
     <> Raised ValueError.
Proof.
  apply (calculate_calories_for_serving_zero_size _ _ _ (S754_zero true)).
  - exists (Float.of_Z 100). reflexivity.
  - exists (Float.of_Z 75). reflexivity.
  - reflexivity.
  - reflexivity.
Defined.

(** C9, at the failing input. With (10^400, "abc", 1) the second argument
    is not a number, yet the call raises [OverflowError] and not
    [ValueError]: the integer too large for a float is converted first,
    and its error passes the handler, which catches [TypeError] and
    [ValueError] only. *)
Theorem overflow_escapes_invalid_input_handler :
  non_numeric (PyStr "abc")
  /\ calculate_calories_for_serving (PyInt (10 ^ 400)) (PyStr "abc") (PyInt 1)
     = Raised OverflowError
  /\ ~ non_numeric_always_invalid_input.
Proof.
  assert (N : non_numeric (PyStr "abc")) by (right; reflexivity).
  assert (E : calculate_calories_for_serving (PyInt (10 ^ 400)) (PyStr "abc") (PyInt 1)
              = Raised OverflowError) by (vm_compute; reflexivity).
  repeat split; trivial.
  intros H.
  specialize (H (PyInt (10 ^ 400)) (PyStr "abc") (PyInt 1) (or_intror (or_introl N))).
  rewrite E in H. discriminate H.
Qed.

(** Where the handler is reached it does what C9 says: when the first
    argument (in the order c, s, u) whose conversion fails is not a
    number, the call raises [ValueError]. *)
Lemma calculate_calories_for_serving_invalid_input (c s u : PyValue) :
  non_numeric c
  \/ (numeric c /\ non_numeric s)
  \/ (numeric c /\ numeric s /\ non_numeric u) ->
  calculate_calories_for_serving c s u = Raised ValueError.
Proof.
  intros H.
  assert (F : convert_arguments c s u = Raised TypeError
              \/ convert_arguments c s u = Raised ValueError).
  { unfold non_numeric in H.
    destruct H as [[Hc | Hc] | [[Nc [Hs | Hs]] | [Nc [Ns [Hu | Hu]]]]];
      ((left; apply convert_arguments_first_failure; tauto)
       || (right; apply convert_arguments_first_failure; tauto)). }
  unfold calculate_calories_for_serving.
  destruct F as [F | F]; now rewrite F.
Qed.

(** (100, "abc", 10^400) raises [ValueError]: the conversion of "abc"
    fails before the oversized integer is looked at. *)
Lemma calculate_calories_for_serving_invalid_input_witness :
  calculate_calories_for_serving (PyInt 100) (PyStr "abc") (PyInt (10 ^ 400))
  = Raised ValueError.
Proof.
  apply (calculate_calories_for_serving_invalid_input
           (PyInt 100) (PyStr "abc") (PyInt (10 ^ 400))).
  right; left. split.
  - exists (Float.of_Z 100). reflexivity.
  - right. reflexivity.
Defined.

(* ===================================================================== *)
(** * Case-insensitive filtering                                           *)
(* ===================================================================== *)

Lemma is_upper_iff (a : ascii) :
  Str.is_upper a = true <-> (65 <= N_of_ascii a <= 90)%N.
Proof.
  unfold Str.is_upper. rewrite andb_true_iff, !N.leb_le. reflexivity.
Qed.

(** The code of the lowered character. *)
Lemma N_of_lower_char (a : ascii) :
  N_of_ascii (Str.lower_char a)
  = if Str.is_upper a then (N_of_ascii a + 32)%N else N_of_ascii a.
Proof.
  unfold Str.lower_char. destruct (Str.is_upper a) eqn:Ha; [| reflexivity].
  apply is_upper_iff in Ha. apply N_ascii_embedding. lia.
Qed.

Lemma lower_char_eq_iff (a b : ascii) :
  Str.lower_char a = Str.lower_char b <-> same_letter a b.
Proof.
  unfold same_letter.
  assert (I : Str.lower_char a = Str.lower_char b
              <-> N_of_ascii (Str.lower_char a) = N_of_ascii (Str.lower_char b)).
  { split; [now intros -> |]. intros E.
    rewrite <- (ascii_N_embedding (Str.lower_char a)), E.
    apply ascii_N_embedding. }
  rewrite I, !N_of_lower_char. cbv zeta.
  pose proof (is_upper_iff a) as Ua. pose proof (is_upper_iff b) as Ub.
  destruct (Str.is_upper a), (Str.is_upper b).
  - assert (65 <= N_of_ascii a <= 90)%N by now apply Ua.
    assert (65 <= N_of_ascii b <= 90)%N by now apply Ub. lia.
  - assert (65 <= N_of_ascii a <= 90)%N by now apply Ua.
    assert (~ (65 <= N_of_ascii b <= 90)%N)
      by (intros K; apply Ub in K; discriminate K).
    lia.
  - assert (~ (65 <= N_of_ascii a <= 90)%N)
      by (intros K; apply Ua in K; discriminate K).
    assert (65 <= N_of_ascii b <= 90)%N by now apply Ub. lia.
  - assert (~ (65 <= N_of_ascii a <= 90)%N)
      by (intros K; apply Ua in K; discriminate K).
    assert (~ (65 <= N_of_ascii b <= 90)%N)
      by (intros K; apply Ub in K; discriminate K).
    lia.
Qed.

(** The comparison of the lowered strings decides equality up to case. *)
Lemma lower_eq_iff (s t : string) :
  Str.lower s = Str.lower t <-> equal_up_to_case s t.
Proof.
  split.
  - revert t. induction s as [| a s IH]; intros [| b t] E; simpl in E;
      try discriminate.
    + constructor.
    + injection E as Ec Es. constructor.
      * now apply lower_char_eq_iff.
      * now apply IH.
  - induction 1 as [| a b s t Hab _ IH]; simpl.
    + reflexivity.
    + apply lower_char_eq_iff in Hab. now rewrite Hab, IH.
Qed.

Lemma lower_eqb_true_iff (s t : string) :
  String.eqb (Str.lower s) (Str.lower t) = true <-> equal_up_to_case s t.
Proof.
  rewrite String.eqb_eq. apply lower_eq_iff.
Qed.

Lemma filter_logs_by_meal_type_filter (logs : list UserLog) (meal_type : string) :
  filter_logs_by_meal_type logs meal_type
  = filter (fun log => String.eqb (Str.lower (Models.meal_type log))
                                  (Str.lower meal_type)) logs.
Proof.
  induction logs as [| log rest IH]; simpl.
  - reflexivity.
  - rewrite IH. reflexivity.
Qed.

Lemma filter_subsequence {A : Type} (f : A -> bool) (l : list A) :
  subsequence (filter f l) l.
Proof.
  induction l as [| x l IH]; simpl.
  - constructor.
  - destruct (f x); now constructor.
Qed.

(** C8. For meal types and queries that are ASCII text,
    [filter_logs_by_meal_type logs meal_type] is exactly the entries of
    [logs] whose meal type equals [meal_type] up to letter case, in their
    original order; queries that differ only in case select the same
    entries; when nothing matches, and for the empty list, the result is
    the empty list. *)
Theorem filter_logs_by_meal_type_case_insensitive
    (logs : list UserLog) (meal_type : string) :
  ascii_text meal_type ->
  Forall (fun log => ascii_text (Models.meal_type log)) logs ->
  (forall dec : (forall a b : string,
                   {equal_up_to_case a b} + {~ equal_up_to_case a b}),
      filter_logs_by_meal_type logs meal_type
      = filter (fun log =>
                  if dec (Models.meal_type log) meal_type then true else false)
               logs)
  /\ subsequence (filter_logs_by_meal_type logs meal_type) logs
  /\ (forall other : string,
        ascii_text other ->
        equal_up_to_case meal_type other ->
        filter_logs_by_meal_type logs other
        = filter_logs_by_meal_type logs meal_type)
  /\ ((forall log, In log logs ->
                   ~ equal_up_to_case (Models.meal_type log) meal_type) ->
      filter_logs_by_meal_type logs meal_type = [])
  /\ filter_logs_by_meal_type [] meal_type = [].
Proof.
  intros _ _. repeat split.
  - intros dec. rewrite filter_logs_by_meal_type_filter.
    apply filter_ext. intros log.
    destruct (dec (Models.meal_type log) meal_type) as [Y | N].
    + now apply lower_eqb_true_iff.
    + apply not_true_is_false. intros E. apply N.
      now apply lower_eqb_true_iff.
  - rewrite filter_logs_by_meal_type_filter. apply filter_subsequence.
  - intros other _ E. apply lower_eq_iff in E.
    rewrite !filter_logs_by_meal_type_filter. now rewrite E.
  - intros N. rewrite filter_logs_by_meal_type_filter.
    induction logs as [| log rest IH]; simpl.
    + reflexivity.
    + destruct (String.eqb (Str.lower (Models.meal_type log))
                           (Str.lower meal_type)) eqn:E.
      * exfalso. apply (N log); [now left |].
        now apply lower_eqb_true_iff.
      * apply IH. intros l Hl. apply N. now right.
Qed.

(** "breakfast", "Breakfast" and "BREAKFAST" select the same two entries of
    [sample_logs], in order; "brunch" selects none. *)
Lemma filter_logs_by_meal_type_case_insensitive_witness :
  filter_logs_by_meal_type sample_logs "Breakfast"
  = filter_logs_by_meal_type sample_logs "breakfast"
  /\ filter_logs_by_meal_type sample_logs "BREAKFAST"
     = filter_logs_by_meal_type sample_logs "breakfast"
  /\ map Models.id (filter_logs_by_meal_type sample_logs "breakfast")
     = [Some 1; Some 3]
  /\ filter_logs_by_meal_type sample_logs "brunch" = [].
Proof.
  assert (A : Forall (fun log => ascii_text (Models.meal_type log))
                     sample_logs)
    by (repeat constructor).
  destruct (filter_logs_by_meal_type_case_insensitive
              sample_logs "breakfast" eq_refl A)
    as (_ & _ & Hcase & _ & _).
  destruct (filter_logs_by_meal_type_case_insensitive
              sample_logs "brunch" eq_refl A)
    as (_ & _ & _ & Hnone & _).
  split; [| split; [| split]].
  - apply Hcase; [reflexivity |]. apply lower_eq_iff. reflexivity.
  - apply Hcase; [reflexivity |]. apply lower_eq_iff. reflexivity.
  - reflexivity.
  - apply Hnone. intros log Hin E. apply lower_eq_iff in E.
    simpl in Hin. destruct Hin as [<- | [<- | [<- | []]]]; discriminate E.
Defined.

(* ===================================================================== *)
(** * Properties of [DatabaseManager] on an open store                     *)
(* ===================================================================== *)

Lemma in_insert_by {A : Type} (leb : A -> A -> bool) (x y : A) (l : list A) :
  In y (Sqlite.insert_by leb x l) <-> y = x \/ In y l.
Proof.
  induction l as [| z l IH]; simpl.
  - intuition.
  - destruct (leb x z); simpl; [intuition |].
    rewrite IH. intuition.
Qed.

(** Ordering a list neither adds nor drops elements. *)
Lemma in_order_by {A : Type} (leb : A -> A -> bool) (y : A) (l : list A) :
  In y (Sqlite.order_by leb l) <-> In y l.
Proof.
  induction l as [| x l IH]; simpl.
  - reflexivity.
  - rewrite in_insert_by, IH. intuition.
Qed.

Lemma update_without_match (f : Meals.row -> Meals.row) (meal_id : Z)
    (rows : list Meals.row) :
  (forall r, In r rows -> Meals.id r <> meal_id) ->
  map (fun r => if Meals.id r =? meal_id then f r else r) rows = rows
  /\ existsb (fun r => Meals.id r =? meal_id) rows = false.
Proof.
  induction rows as [| r rows IH]; intros H; simpl.
  - split; reflexivity.
  - assert (E : (Meals.id r =? meal_id) = false)
      by (apply Z.eqb_neq, H; now left).
    rewrite E. destruct IH as [IH1 IH2]; [intros r' Hr'; apply H; now right |].
    now rewrite IH1, IH2.
Qed.

Lemma delete_without_match (meal_id : Z) (rows : list Meals.row) :
  (forall r, In r rows -> Meals.id r <> meal_id) ->
  filter (fun r => negb (Meals.id r =? meal_id)) rows = rows.
Proof.
  induction rows as [| r rows IH]; intros H; simpl.
  - reflexivity.
  - assert (E : (Meals.id r =? meal_id) = false)
      by (apply Z.eqb_neq, H; now left).
    rewrite E; simpl. f_equal. apply IH. intros r' Hr'. apply H. now right.
Qed.

(** The value that is stored is the value that was written, as a number:
    the two are equal floats, and the same float unless a negative zero
    was written. *)
Lemma stored_real_value (x : float) :
  Float.is_nan x = false ->
  Float.eqb (Sqlite.stored_real x) x = true
  /\ (Sqlite.stored_real x = x
      \/ (x = S754_zero true /\ Sqlite.stored_real x = S754_zero false)).
Proof.
  intros Hx. destruct x as [[] | [] | | [] m e]; try discriminate Hx; simpl;
    (split; [| auto]); unfold Float.eqb, SFeqb, SFcompare;
    try reflexivity;
    rewrite Z.compare_refl, ?Pos.compare_cont_refl, ?Pos.compare_refl;
    reflexivity.
Qed.

Lemma stored_real_nan (x : float) :
  Float.is_nan (Sqlite.stored_real x) = Float.is_nan x.
Proof. destruct x; reflexivity. Qed.

Lemma existsb_stored (meal_id : Z) (rows : list Meals.row) :
  existsb (fun r => Meals.id r =? meal_id) rows = true
  <-> exists r, In r rows /\ Meals.id r = meal_id.
Proof.
  rewrite existsb_exists. split; intros (r & Hr & E); exists r; split; trivial.
  - now apply Z.eqb_eq.
  - now apply Z.eqb_eq.
Qed.

(** [update_meal] on an open store, for an id that binds. *)
Lemma update_meal_open (rows : list Meals.row) (sequence : Z)
    (users : option (list Users.row)) (meal_id : Z)
    (meal_type food_name : string) (calories : float)
    (serving_size notes : string) :
  bindable meal_id rows = true ->
  update_meal meal_id meal_type food_name calories serving_size notes
              (open_store rows sequence users)
  = if Float.is_nan calories && existsb (fun r => Meals.id r =? meal_id) rows
    then (Returned false, open_store rows sequence users)
    else (Returned true,
          open_store
            (map (fun r => if Meals.id r =? meal_id
                           then Sqlite.set_fields meal_type food_name calories
                                                  serving_size notes r
                           else r) rows)
            sequence users).
Proof.
  unfold bindable. intros B.
  unfold update_meal, open_store, try_except_sqlite3, bind, cursor, commit,
    use_connection, execute_with_id, execute, Sqlite.UPDATE_meals, ret; simpl.
  rewrite B; simpl.
  destruct (Float.is_nan calories
            && existsb (fun r => Meals.id r =? meal_id) rows); reflexivity.
Qed.

(** [update_meal] and [delete_meal] on an open store, for an id that does
    not bind: the [OverflowError] leaves the method and nothing is
    written. *)
Lemma update_meal_unbound (rows : list Meals.row) (sequence : Z)
    (users : option (list Users.row)) (meal_id : Z)
    (meal_type food_name : string) (calories : float)
    (serving_size notes : string) :
  bindable meal_id rows = false ->
  update_meal meal_id meal_type food_name calories serving_size notes
              (open_store rows sequence users)
  = (Raised OverflowError, open_store rows sequence users).
Proof.
  unfold bindable. intros B.
  unfold update_meal, open_store, try_except_sqlite3, bind, cursor, commit,
    use_connection, execute_with_id, ret; simpl.
  rewrite B. reflexivity.
Qed.

Lemma delete_meal_open (rows : list Meals.row) (sequence : Z)
    (users : option (list Users.row)) (meal_id : Z) :
  bindable meal_id rows = true ->
  delete_meal meal_id (open_store rows sequence users)
  = (Returned true,
     open_store (filter (fun r => negb (Meals.id r =? meal_id)) rows)
                sequence users).
Proof.
  unfold bindable. intros B.
  unfold delete_meal, open_store, try_except_sqlite3, bind, cursor, commit,
    use_connection, execute_with_id, execute, Sqlite.DELETE_meals, ret; simpl.
  rewrite B. reflexivity.
Qed.

Lemma delete_meal_unbound (rows : list Meals.row) (sequence : Z)
    (users : option (list Users.row)) (meal_id : Z) :
  bindable meal_id rows = false ->
  delete_meal meal_id (open_store rows sequence users)
  = (Raised OverflowError, open_store rows sequence users).
Proof.
  unfold bindable. intros B.
  unfold delete_meal, open_store, try_except_sqlite3, bind, cursor, commit,
    use_connection, execute_with_id, ret; simpl.
  rewrite B. reflexivity.
Qed.

(** C5. On an open store, for an id in the signed 64-bit range (as the id
    of every stored entry is) and a calories value that is a number,
    [update_meal] returns [True]; every row keeps its position, id, date
    and timestamp; the rows with the given id get the five new field
    values, the calories as the REAL column stores them, which is the
    given number; every other row, the id counter and the settings are
    unchanged. *)
Theorem update_meal_replaces_mutable_fields
    (rows : list Meals.row) (sequence : Z) (users : option (list Users.row))
    (meal_id : Z) (meal_type food_name : string) (calories : float)
    (serving_size notes : string) :
  fits_int64 meal_id = true ->
  Float.is_nan calories = false ->
  exists rows' : list Meals.row,
    update_meal meal_id meal_type food_name calories serving_size notes
                (open_store rows sequence users)
    = (Returned true, open_store rows' sequence users)
    /\ List.length rows' = List.length rows
    /\ forall (k : nat) (r : Meals.row),
         nth_error rows k = Some r ->
         exists r' : Meals.row,
           nth_error rows' k = Some r'
           /\ Meals.id r' = Meals.id r
           /\ Meals.date r' = Meals.date r
           /\ Meals.timestamp r' = Meals.timestamp r
           /\ (Meals.id r = meal_id ->
               Meals.meal_type r' = meal_type
               /\ Meals.food_name r' = food_name
               /\ Meals.calories r' = Sqlite.stored_real calories
               /\ Float.eqb (Meals.calories r') calories = true
               /\ Meals.serving_size r' = Some serving_size
               /\ Meals.notes r' = Some notes)
           /\ (Meals.id r <> meal_id -> r' = r).
Proof.
  intros Hfits Hnum.
  eexists. split; [| split].
  - rewrite update_meal_open by (unfold bindable; now rewrite Hfits).
    rewrite Hnum; simpl. reflexivity.
  - apply length_map.
  - intros k r Hk. rewrite nth_error_map, Hk; simpl.
    eexists. split; [reflexivity |].
    destruct (Z.eqb_spec (Meals.id r) meal_id) as [E | N]; simpl.
    + split; [reflexivity |]. split; [reflexivity |]. split; [reflexivity |].
      split; [intros _ | intros N; contradiction].
      split; [reflexivity |]. split; [reflexivity |]. split; [reflexivity |].
      split; [apply stored_real_value, Hnum |]. split; reflexivity.
    + split; [reflexivity |]. split; [reflexivity |]. split; [reflexivity |].
      split; [intros E; contradiction | reflexivity].
Qed.

(** C10, at the failing input. The id 2^63, which no row of
    [sample_rows] has, cannot be bound to the statement: [update_meal]
    raises [OverflowError], which its handler does not catch, instead of
    reporting success; the store is left as it was. *)
Theorem update_meal_unbound_id_raises :
  (forall r, In r sample_rows -> Meals.id r <> 2 ^ 63)
  /\ update_meal (2 ^ 63) "Snacks" "Nuts" (Float.of_Z 10) "1" "salted"
                 (open_store sample_rows 2 (Some [default_user]))
     = (Raised OverflowError, open_store sample_rows 2 (Some [default_user]))
  /\ ~ update_succeeds_for_every_unknown_id.
Proof.
  assert (N : forall r, In r sample_rows -> Meals.id r <> 2 ^ 63).
  { intros r Hin. simpl in Hin.
    destruct Hin as [<- | [<- | []]]; simpl; lia. }
  assert (E : update_meal (2 ^ 63) "Snacks" "Nuts" (Float.of_Z 10) "1" "salted"
                          (open_store sample_rows 2 (Some [default_user]))
              = (Raised OverflowError,
                 open_store sample_rows 2 (Some [default_user])))
    by (apply update_meal_unbound; reflexivity).
  split; [exact N |]. split; [exact E |].
  intros H.
  specialize (H sample_rows 2 (Some [default_user]) (2 ^ 63) "Snacks" "Nuts"
                (Float.of_Z 10) "1" "salted" N).
  rewrite E in H. discriminate H.
Qed.

(** For an id in the signed 64-bit range the update of an unknown id does
    what C10 says: on an open store in which no row has the id,
    [update_meal] returns [True] and the manager, the rows of [meals], the
    id counter and the settings are exactly as before. *)
Lemma update_meal_unknown_id_is_noop
    (rows : list Meals.row) (sequence : Z) (users : option (list Users.row))
    (meal_id : Z) (meal_type food_name : string) (calories : float)
    (serving_size notes : string) :
  fits_int64 meal_id = true ->
  (forall r, In r rows -> Meals.id r <> meal_id) ->
  update_meal meal_id meal_type food_name calories serving_size notes
              (open_store rows sequence users)
  = (Returned true, open_store rows sequence users).
Proof.
  intros Hfits Hnone.
  destruct (update_without_match
              (Sqlite.set_fields meal_type food_name calories serving_size notes)
              meal_id rows Hnone) as [Hmap Hex].
  rewrite update_meal_open by (unfold bindable; now rewrite Hfits).
  rewrite Hex, andb_false_r, Hmap. reflexivity.
Qed.

(** C7, at the failing input. The id 2^63 cannot be bound to the
    statement: [delete_meal] raises [OverflowError], which its handler
    does not catch, instead of succeeding; the store is left as it
    was. *)
Theorem delete_meal_unbound_id_raises :
  delete_meal (2 ^ 63) (open_store sample_rows 2 (Some [default_user]))
  = (Raised OverflowError, open_store sample_rows 2 (Some [default_user]))
  /\ ~ delete_succeeds_for_every_id.
Proof.
  assert (E : delete_meal (2 ^ 63)
                          (open_store sample_rows 2 (Some [default_user]))
              = (Raised OverflowError,
                 open_store sample_rows 2 (Some [default_user])))
    by (apply delete_meal_unbound; reflexivity).
  split; [exact E |].
  intros H.
  specialize (H sample_rows 2 (Some [default_user]) (2 ^ 63)).
  rewrite E in H. discriminate H.
Qed.

(** For an id in the signed 64-bit range the deletion does what C7 says:
    on an open store [delete_meal] returns [True]; afterwards
    [read_all_meals] lists no entry with the id while every row with
    another id is still stored; when no row has the id nothing changes;
    and a second [delete_meal] of the same id returns [True] again. *)
Lemma delete_meal_removes_entry
    (rows : list Meals.row) (sequence : Z) (users : option (list Users.row))
    (meal_id : Z) :
  fits_int64 meal_id = true ->
  exists rows' : list Meals.row,
    delete_meal meal_id (open_store rows sequence users)
    = (Returned true, open_store rows' sequence users)
    /\ (exists listing,
          read_all_meals (open_store rows' sequence users)
          = (Returned listing, open_store rows' sequence users)
          /\ forall t, In t listing -> listed_id t <> meal_id)
    /\ (forall r, In r rows -> Meals.id r <> meal_id -> In r rows')
    /\ ((forall r, In r rows -> Meals.id r <> meal_id) -> rows' = rows)
    /\ delete_meal meal_id (open_store rows' sequence users)
       = (Returned true, open_store rows' sequence users).
Proof.
  intros Hfits.
  assert (B : forall l, bindable meal_id l = true)
    by (intros l; unfold bindable; now rewrite Hfits).
  exists (filter (fun r => negb (Meals.id r =? meal_id)) rows).
  split; [apply delete_meal_open, B |]. split; [| split; [| split]].
  - eexists. split; [reflexivity |].
    intros t Ht. apply in_map_iff in Ht as (r & <- & Hr).
    apply in_order_by, filter_In in Hr as [_ Hr].
    simpl. apply negb_true_iff, Z.eqb_neq in Hr. exact Hr.
  - intros r Hin Hne. apply filter_In. split; [exact Hin |].
    now apply negb_true_iff, Z.eqb_neq.
  - apply delete_without_match.
  - rewrite delete_meal_open by apply B.
    rewrite delete_without_match; [reflexivity |].
    intros r Hr. apply filter_In in Hr as [_ Hr].
    now apply negb_true_iff, Z.eqb_neq in Hr.
Qed.

(** Updating the meal with id 2 of [sample_rows]. *)
Lemma update_meal_replaces_mutable_fields_witness :
  fits_int64 2 = true
  /\ Float.is_nan (Float.of_Z 10) = false
  /\ exists rows' : list Meals.row,
       update_meal 2 "Snacks" "Nuts" (Float.of_Z 10) "1" "salted"
                   (open_store sample_rows 2 (Some [default_user]))
       = (Returned true, open_store rows' 2 (Some [default_user]))
       /\ List.length rows' = List.length sample_rows
       /\ forall (k : nat) (r : Meals.row),
            nth_error sample_rows k = Some r ->
            exists r' : Meals.row,
              nth_error rows' k = Some r'
              /\ Meals.id r' = Meals.id r
              /\ Meals.date r' = Meals.date r
              /\ Meals.timestamp r' = Meals.timestamp r
              /\ (Meals.id r = 2 ->
                  Meals.meal_type r' = "Snacks"
                  /\ Meals.food_name r' = "Nuts"
                  /\ Meals.calories r' = Sqlite.stored_real (Float.of_Z 10)
                  /\ Float.eqb (Meals.calories r') (Float.of_Z 10) = true
                  /\ Meals.serving_size r' = Some "1"
                  /\ Meals.notes r' = Some "salted")
              /\ (Meals.id r <> 2 -> r' = r).
Proof.
  split; [reflexivity |]. split; [reflexivity |].
  apply (update_meal_replaces_mutable_fields
           sample_rows 2 (Some [default_user]) 2 "Snacks" "Nuts"
           (Float.of_Z 10) "1" "salted").
  - reflexivity.
  - reflexivity.
Defined.

(** Updating the id 7, which [sample_rows] does not hold; even a NaN for
    the calories is accepted, since no row is written. *)
Lemma update_meal_unknown_id_is_noop_witness :
  update_meal 7 "Snacks" "Nuts" Float.nan "1" "salted"
              (open_store sample_rows 2 (Some [default_user]))
  = (Returned true, open_store sample_rows 2 (Some [default_user])).
Proof.
  apply (update_meal_unknown_id_is_noop
           sample_rows 2 (Some [default_user]) 7 "Snacks" "Nuts" Float.nan
           "1" "salted").
  - reflexivity.
  - intros r Hin. simpl in Hin.
    destruct Hin as [<- | [<- | []]]; simpl; lia.
Defined.

(** Deleting the meal with id 2 of [sample_rows]. *)
Lemma delete_meal_removes_entry_witness :
  exists rows' : list Meals.row,
    delete_meal 2 (open_store sample_rows 2 (Some [default_user]))
    = (Returned true, open_store rows' 2 (Some [default_user]))
    /\ (exists listing,
          read_all_meals (open_store rows' 2 (Some [default_user]))
          = (Returned listing, open_store rows' 2 (Some [default_user]))
          /\ forall t, In t listing -> listed_id t <> 2)
    /\ (forall r, In r sample_rows -> Meals.id r <> 2 -> In r rows')
    /\ ((forall r, In r sample_rows -> Meals.id r <> 2) -> rows' = sample_rows)
    /\ delete_meal 2 (open_store rows' 2 (Some [default_user]))
       = (Returned true, open_store rows' 2 (Some [default_user])).
Proof.
  apply (delete_meal_removes_entry sample_rows 2 (Some [default_user]) 2).
  reflexivity.
Defined.

(* ===================================================================== *)
(** * Initialization                                                       *)
(* ===================================================================== *)

Lemma reinitialize_initialized (rows : list Meals.row) (sequence : Z)
    (u : Users.row) (us : list Users.row) (c : option Connection) :
  reinitialize
    (mkDatabaseManager c
       (Database (Sqlite.mkDatabase (Some rows) sequence (Some (u :: us)))))
  = open_store rows sequence (Some (u :: us)).
Proof. reflexivity. Qed.

Lemma reinitialize_idempotent (self : DatabaseManager) :
  reinitialize (reinitialize self) = reinitialize self.
Proof.
  destruct self as [c [| | [[rows |] sequence [[| u us] |]]]]; reflexivity.
Qed.

Lemma reinitialize_fresh (n : nat) :
  Nat.iter n reinitialize (init (Database Sqlite.empty))
  = open_store [] 0 (Some [default_user]).
Proof.
  induction n as [| n IH]; simpl.
  - reflexivity.
  - rewrite IH. reflexivity.
Qed.

(** C6. Creating the manager over a new database file creates both tables
    and inserts the single settings row (1, "User", 2000); any number of
    further [initialize_database] calls leaves exactly that store, on
    which [get_target_calories] returns 2000. In general a second call
    changes nothing, and a store that already holds settings rows, and
    any meals, is left as it is. *)
Theorem initialize_database_idempotent :
  (forall n : nat,
      let self := Nat.iter n reinitialize (init (Database Sqlite.empty)) in
      self = open_store [] 0 (Some [default_user])
      /\ get_target_calories self = (Returned 2000, self))
  /\ (forall self : DatabaseManager,
         reinitialize (reinitialize self) = reinitialize self)
  /\ (forall rows sequence u us,
         reinitialize (open_store rows sequence (Some (u :: us)))
         = open_store rows sequence (Some (u :: us))).
Proof.
  split; [| split].
  - intros n self. subst self. rewrite reinitialize_fresh.
    split; reflexivity.
  - apply reinitialize_idempotent.
  - intros. apply reinitialize_initialized.
Qed.

(* ===================================================================== *)
(** * Operations on a store that failed to open                            *)
(* ===================================================================== *)

(** C2, counterexample. Over a file that is not a database the reads
    return their defaults, e.g. [get_target_calories] returns 2000; over a
    file that cannot be opened [self.connection] stays [None] and the
    methods raise [AttributeError]. *)
Lemma failed_store_defaults_counterexample :
  fst (get_target_calories (init NotADatabase)) = Returned 2000
  /\ fst (read_all_meals (init NotADatabase)) = Returned []
  /\ fst (get_target_calories (init Unopenable)) = Raised AttributeError
  /\ ~ failed_store_operations_fail.
Proof.
  repeat split.
  intros H.
  destruct (H NotADatabase (or_intror eq_refl)
              (Datetime.mkDatetime 738886 0) "" "" "" Float.zero "" "" 1)
    as (_ & _ & _ & Htarget & _).
  discriminate Htarget.
Qed.

(** C2, amended. On a manager that has a connection object which cannot
    run statements (closed, or over a file that is not a database), each
    method catches the [sqlite3.Error] and returns its failure value:
    [False] for the three writes, the empty list, 0.0 and 2000 for the
    reads. The manager and the file are left as they were. *)
Theorem failed_connection_returns_failure_values
    (c : Connection) (f : file_state)
    (now : datetime) (date meal_type food_name : string) (calories : float)
    (serving_size notes : string) (meal_id : Z) :
  c = Closed \/ f = Unopenable \/ f = NotADatabase ->
  let self := mkDatabaseManager (Some c) f in
  create_meal now date meal_type food_name calories serving_size notes self
  = (Returned false, self)
  /\ update_meal meal_id meal_type food_name calories serving_size notes self
     = (Returned false, self)
  /\ delete_meal meal_id self = (Returned false, self)
  /\ read_meals_by_date date self = (Returned [], self)
  /\ read_all_meals self = (Returned [], self)
  /\ get_daily_calories date self = (Returned Float.zero, self)
  /\ get_target_calories self = (Returned 2000, self).
Proof.
  intros H self. subst self.
  destruct c; destruct f as [| | db];
    try (repeat split; reflexivity).
  destruct H as [H | [H | H]]; discriminate H.
Qed.

(** The manager created over a file that is not a database. *)
Lemma failed_connection_returns_failure_values_witness :
  let self := init NotADatabase in
  create_meal (Datetime.mkDatetime 738886 0) "2024-01-01" "Lunch" "Rice"
              (Float.of_Z 200) "" "" self
  = (Returned false, self)
  /\ update_meal 1 "Lunch" "Rice" (Float.of_Z 200) "" "" self
     = (Returned false, self)
  /\ delete_meal 1 self = (Returned false, self)
  /\ read_meals_by_date "2024-01-01" self = (Returned [], self)
  /\ read_all_meals self = (Returned [], self)
  /\ get_daily_calories "2024-01-01" self = (Returned Float.zero, self)
  /\ get_target_calories self = (Returned 2000, self).
Proof.
  apply (failed_connection_returns_failure_values
           Open NotADatabase (Datetime.mkDatetime 738886 0)
           "2024-01-01" "Lunch" "Rice" (Float.of_Z 200) "" "" 1).
  right; right; reflexivity.
Defined.

(* ===================================================================== *)
(** * The weekly series                                                    *)
(* ===================================================================== *)

Lemma get_daily_calories_open (rows : list Meals.row) (sequence : Z)
    (users : option (list Users.row)) (date : string) :
  get_daily_calories date (open_store rows sequence users)
  = (Returned (daily_total rows date), open_store rows sequence users).
Proof.
  unfold get_daily_calories, open_store, try_except_sqlite3, bind, cursor,
    use_connection, execute, Sqlite.SELECT_SUM_calories, daily_total, ret;
    simpl.
  destruct (filter (fun r => String.eqb (Meals.date r) date) rows)
    as [| r l]; [reflexivity |].
  simpl. destruct (Float.is_nan (Sqlite.sum_real _)); reflexivity.
Qed.

Lemma daily_total_no_meals (rows : list Meals.row) (date : string) :
  (forall r, In r rows -> Meals.date r <> date) ->
  daily_total rows date = Float.zero.
Proof.
  intros H. unfold daily_total.
  destruct (filter (fun r => String.eqb (Meals.date r) date) rows)
    as [| r hits] eqn:E; [reflexivity |].
  assert (Hr : In r (filter (fun r => String.eqb (Meals.date r) date) rows))
    by (rewrite E; now left).
  apply filter_In in Hr as [Hin Hd]. apply String.eqb_eq in Hd.
  now destruct (H r Hin).
Qed.

Lemma weekly_loop_open (rows : list Meals.row) (sequence : Z)
    (users : option (list Users.row)) (now : Z -> datetime)
    (indices : list Z) (weekly_data : list (string * float)) :
  weekly_loop now indices weekly_data (open_store rows sequence users)
  = (Returned
       (weekly_data
        ++ map (fun i =>
                  let date :=
                    Datetime.strftime_ymd (Datetime.minus_days (now i) i) in
                  (date, daily_total rows date)) indices)%list,
     open_store rows sequence users).
Proof.
  revert weekly_data.
  induction indices as [| i rest IH]; intros weekly_data; simpl.
  - now rewrite app_nil_r.
  - unfold bind. rewrite get_daily_calories_open. rewrite IH.
    now rewrite <- app_assoc.
Qed.

(** When the calendar day does not change while the loop runs,
    [get_weekly_data] on an open store returns the seven days ending
    today, oldest first, each with its daily total, and leaves the store
    as it was. *)
Lemma get_weekly_data_same_day (rows : list Meals.row) (sequence : Z)
    (users : option (list Users.row)) (now : Z -> datetime) (today : Z) :
  (forall i, 0 <= i <= 6 -> Datetime.ordinal (now i) = today) ->
  get_weekly_data now (open_store rows sequence users)
  = (Returned (map (fun date => (date, daily_total rows date))
                   (week_ending today)),
     open_store rows sequence users).
Proof.
  intros H. unfold get_weekly_data. rewrite weekly_loop_open.
  unfold week_ending, Datetime.strftime_ymd, Datetime.minus_days; simpl.
  rewrite !H by lia. reflexivity.
Qed.

(** C4, at the failing input. With the clock passing midnight between two
    iterations, [get_weekly_data] on a newly created store returns seven
    pairs whose dates skip 2024-01-03: they are the week ending on neither
    of the two days the clock showed. *)
Theorem get_weekly_data_midnight_gap :
  get_weekly_data midnight_clock (init (Database Sqlite.empty))
  = (Returned [ ("2023-12-30", Float.zero); ("2023-12-31", Float.zero);
                ("2024-01-01", Float.zero); ("2024-01-02", Float.zero);
                ("2024-01-04", Float.zero); ("2024-01-05", Float.zero);
                ("2024-01-06", Float.zero) ],
     init (Database Sqlite.empty))
  /\ week_ending 738890
     = [ "2023-12-30"; "2023-12-31"; "2024-01-01"; "2024-01-02";
         "2024-01-03"; "2024-01-04"; "2024-01-05" ]
  /\ forall i : Z,
       map fst (match fst (get_weekly_data midnight_clock
                                           (init (Database Sqlite.empty))) with
                | Returned weekly_data => weekly_data
                | Raised _ => []
                end)
       <> week_ending (Datetime.ordinal (midnight_clock i)).
Proof.
  split; [vm_compute; reflexivity |].
  split; [vm_compute; reflexivity |].
  intros i. unfold midnight_clock.
  destruct (3 <=? i); vm_compute; discriminate.
Qed.

(* ===================================================================== *)
(** * The model on concrete inputs                                         *)
(* ===================================================================== *)

Example float_of_numeric_string :
  py_float (PyStr " 1_0.5e1 ") = Returned (Float.of_Z 105).
Proof. reflexivity. Qed.

Example float_of_non_numeric_string :
  py_float (PyStr "abc") = Raised ValueError.
Proof. reflexivity. Qed.

Example calories_from_numeric_strings :
  calculate_calories_for_serving (PyStr "100") (PyStr "50") (PyStr "75")
  = Returned (Float.of_Z 150).
Proof. reflexivity. Qed.

(** After one [create_meal] on a new store, [read_meals_by_date] returns
    that entry with the id 1 and the creation timestamp. *)
Example create_then_read_by_date :
  let self := init (Database Sqlite.empty) in
  let created :=
    create_meal (Datetime.mkDatetime 738886 43200000000)
                "2024-01-01" "Lunch" "Rice" (Float.of_Z 200) "" "" self in
  fst created = Returned true
  /\ fst (read_meals_by_date "2024-01-01" (snd created))
     = Returned [(1, "Lunch", "Rice", Float.of_Z 200, Some "", Some "",
                  "2024-01-01T12:00:00")]
  /\ fst (get_daily_calories "2024-01-01" (snd created))
     = Returned (Float.of_Z 200).
Proof. repeat split. Qed.

(** A NaN for the calories violates the NOT NULL constraint: the meal is
    not stored and [create_meal] returns [False]. *)
Example create_meal_rejects_nan :
  let self := init (Database Sqlite.empty) in
  create_meal (Datetime.mkDatetime 738886 0) "2024-01-01" "Lunch" "Rice"
              Float.nan "" "" self
  = (Returned false, self).
Proof. reflexivity. Qed.

(** With a steady clock the weekly series of a new store is the seven
    days ending today, each with the total 0.0. *)
Example weekly_series_of_new_store :
  fst (get_weekly_data (fun _ => Datetime.mkDatetime 738890 43200000000)
                       (init (Database Sqlite.empty)))
  = Returned (map (fun date => (date, Float.zero)) (week_ending 738890)).
Proof. reflexivity. Qed.

(** [close] on a manager without a connection does nothing, and closing
    twice is allowed. *)
Example close_is_safe :
  close (init Unopenable) = (Returned tt, init Unopenable)
  /\ snd (close (snd (close (init NotADatabase))))
     = snd (close (init NotADatabase)).
Proof. split; reflexivity. Qed.

(** [float()] does not skip the separator \x1c around a number, which
    [str.strip()] removes. *)
Example float_keeps_separators :
  py_float (PyStr (String (ascii_of_nat 28) "1")) = Raised ValueError
  /\ py_strip (String (ascii_of_nat 28) "1") = "1"
  /\ py_float (PyStr (py_strip (String (ascii_of_nat 28) "1")))
     = Returned (Float.of_Z 1).
Proof. repeat split. Qed.

(** A day whose calories add up to a NaN has the total 0.0, like a day
    without meals: the sum comes back as NULL. *)
Example total_of_opposite_infinities :
  let rows :=
    [ Meals.mkRow 1 "2024-01-01" "Lunch" "Rice" (Float.infinity false)
                  (Some "") (Some "") "2024-01-01T12:00:00";
      Meals.mkRow 2 "2024-01-01" "Dinner" "Soup" (Float.infinity true)
                  (Some "") (Some "") "2024-01-01T19:30:00" ] in
  fst (get_daily_calories "2024-01-01" (open_store rows 2 None))
  = Returned Float.zero.
Proof. reflexivity. Qed.

(** A negative zero written by [create_meal] or [update_meal] reads back
    as 0.0. *)
Example negative_zero_reads_back_as_zero :
  let created :=
    snd (create_meal sample_noon "2024-01-02" "Snacks" "Nuts" (S754_zero true)
                     "" "" (init (Database Sqlite.empty))) in
  let updated :=
    snd (update_meal 1 "Snacks" "Nuts" (S754_zero true) "" ""
                     (open_store sample_rows 2 None)) in
  fst (read_meals_by_date "2024-01-02" created)
  = Returned [(1, "Snacks", "Nuts", S754_zero false, Some "", Some "",
               "2024-01-02T12:00:00")]
  /\ fst (read_meals_by_date "2024-01-01" updated)
     = Returned [(1, "Snacks", "Nuts", S754_zero false, Some "", Some "",
                  "2024-01-01T12:00:00");
                 (2, "Dinner", "Soup", Float.of_Z 50, Some "1 bowl", Some "",
                  "2024-01-01T19:30:00")].
Proof. split; reflexivity. Qed.

(** On a closed connection the statement fails before any parameter is
    bound: the id 2^63 then gives [False] like every other id. *)
Example unbound_id_on_closed_connection :
  let self := snd (close (open_store sample_rows 2 None)) in
  update_meal (2 ^ 63) "Snacks" "Nuts" (Float.of_Z 10) "1" "" self
  = (Returned false, self)
  /\ delete_meal (2 ^ 63) self = (Returned false, self)
  /\ delete_meal (- 2 ^ 63) (open_store sample_rows 2 None)
     = (Returned true, open_store sample_rows 2 None).
Proof. repeat split. Qed.

(* ===================================================================== *)
(** * Ordering of the query results                                        *)
(* ===================================================================== *)

Lemma string_leb_iff (a b : string) :
  String.leb a b = true <-> a = b \/ String_as_OT.lt a b.
Proof.
  unfold String.leb.
  destruct (String.compare a b) eqn:E.
  - apply String_as_OT.cmp_eq in E. tauto.
  - apply String_as_OT.cmp_lt in E. tauto.
  - split; [discriminate |].
    intros [-> | L].
    + assert (H : String.compare b b = Eq) by now apply String_as_OT.cmp_eq.
      congruence.
    + apply String_as_OT.cmp_lt in L. unfold String_as_OT.cmp in L. congruence.
Qed.

Lemma string_leb_trans (a b c : string) :
  String.leb a b = true -> String.leb b c = true -> String.leb a c = true.
Proof.
  rewrite !string_leb_iff.
  intros [-> | L1] [-> | L2]; auto.
  right. eapply String_as_OT.lt_trans; eassumption.
Qed.

Lemma string_ltb_iff (a b : string) :
  String.ltb a b = true <-> String_as_OT.lt a b.
Proof.
  unfold String.ltb.
  destruct (String.compare a b) eqn:E.
  - split; [discriminate |]. intros L.
    apply String_as_OT.cmp_lt in L. unfold String_as_OT.cmp in L. congruence.
  - apply String_as_OT.cmp_lt in E. tauto.
  - split; [discriminate |]. intros L.
    apply String_as_OT.cmp_lt in L. unfold String_as_OT.cmp in L. congruence.
Qed.

Lemma string_trichotomy (a b : string) :
  String_as_OT.lt a b \/ a = b \/ String_as_OT.lt b a.
Proof.
  destruct (String.compare a b) eqn:E.
  - right; left. now apply String_as_OT.cmp_eq.
  - left. now apply String_as_OT.cmp_lt.
  - right; right. apply String_as_OT.cmp_lt. unfold String_as_OT.cmp.
    rewrite String.compare_antisym, E. reflexivity.
Qed.

Section OrderBy.

Context {A : Type} (leb : A -> A -> bool).
Hypothesis leb_total : forall a b, leb a b = true \/ leb b a = true.
Hypothesis leb_trans :
  forall a b c, leb a b = true -> leb b c = true -> leb a c = true.

Lemma insert_by_permutation (x : A) (l : list A) :
  Permutation (Sqlite.insert_by leb x l) (x :: l).
Proof.
  induction l as [| y l IH]; simpl.
  - reflexivity.
  - destruct (leb x y).
    + reflexivity.
    + rewrite IH. apply perm_swap.
Qed.

Lemma order_by_permutation (l : list A) :
  Permutation (Sqlite.order_by leb l) l.
Proof.
  induction l as [| x l IH]; simpl.
  - reflexivity.
  - rewrite insert_by_permutation. now constructor.
Qed.

Lemma insert_by_sorted (x : A) (l : list A) :
  StronglySorted (fun a b => leb a b = true) l ->
  StronglySorted (fun a b => leb a b = true) (Sqlite.insert_by leb x l).
Proof.
  induction 1 as [| y l Hs IH Hy]; simpl.
  - repeat constructor.
  - destruct (leb x y) eqn:E.
    + constructor; [now constructor |].
      constructor; [exact E |].
      eapply Forall_impl; [| exact Hy].
      intros z Hz. now apply (leb_trans x y z).
    + constructor; [exact IH |].
      assert (Hyx : leb y x = true)
        by (destruct (leb_total x y) as [H | H]; congruence).
      apply (Permutation_Forall (Permutation_sym (insert_by_permutation x l))).
      now constructor.
Qed.

Lemma order_by_sorted (l : list A) :
  StronglySorted (fun a b => leb a b = true) (Sqlite.order_by leb l).
Proof.
  induction l as [| x l IH]; simpl.
  - constructor.
  - now apply insert_by_sorted.
Qed.

End OrderBy.

Lemma StronglySorted_map {A B : Type} (f : A -> B) (R : B -> B -> Prop)
    (l : list A) :
  StronglySorted (fun a b => R (f a) (f b)) l ->
  StronglySorted R (map f l).
Proof.
  induction 1 as [| x l _ IH Hx]; simpl; constructor.
  - exact IH.
  - apply Forall_map. exact Hx.
Qed.

Lemma StronglySorted_weaken {A : Type} (R S : A -> A -> Prop) (l : list A) :
  (forall a b, R a b -> S a b) ->
  StronglySorted R l -> StronglySorted S l.
Proof.
  intros H. induction 1 as [| x l _ IH Hx]; constructor.
  - exact IH.
  - eapply Forall_impl; [| exact Hx]. intros b. apply H.
Qed.

Lemma date_desc_timestamp_desc_iff (a b : Meals.row) :
  Sqlite.date_desc_timestamp_desc a b = true
  <-> String_as_OT.lt (Meals.date b) (Meals.date a)
      \/ (Meals.date a = Meals.date b
          /\ String.leb (Meals.timestamp b) (Meals.timestamp a) = true).
Proof.
  unfold Sqlite.date_desc_timestamp_desc.
  rewrite orb_true_iff, andb_true_iff, string_ltb_iff, String.eqb_eq.
  reflexivity.
Qed.

Lemma date_desc_timestamp_desc_total (a b : Meals.row) :
  Sqlite.date_desc_timestamp_desc a b = true
  \/ Sqlite.date_desc_timestamp_desc b a = true.
Proof.
  rewrite !date_desc_timestamp_desc_iff.
  destruct (string_trichotomy (Meals.date a) (Meals.date b)) as [L | [E | L]].
  - right. now left.
  - destruct (String.leb_total (Meals.timestamp a) (Meals.timestamp b)).
    + right. right. now split.
    + left. right. now split.
  - left. now left.
Qed.

Lemma date_desc_timestamp_desc_trans (a b c : Meals.row) :
  Sqlite.date_desc_timestamp_desc a b = true ->
  Sqlite.date_desc_timestamp_desc b c = true ->
  Sqlite.date_desc_timestamp_desc a c = true.
Proof.
  rewrite !date_desc_timestamp_desc_iff.
  intros [L1 | [E1 T1]] [L2 | [E2 T2]].
  - left. eapply String_as_OT.lt_trans; eassumption.
  - left. now rewrite E2 in L1.
  - left. now rewrite E1.
  - right. split; [congruence |].
    eapply string_leb_trans; eassumption.
Qed.

(** X1. On an open store [read_meals_by_date] returns, without changing
    the store, exactly the rows with the given date, each once, ordered
    by timestamp ascending; the list is empty exactly when no row has the
    date. *)
Theorem read_meals_by_date_sorted
    (rows : list Meals.row) (sequence : Z) (users : option (list Users.row))
    (date : string) :
  exists listing : list meal_of_day,
    read_meals_by_date date (open_store rows sequence users)
    = (Returned listing, open_store rows sequence users)
    /\ Permutation listing
         (map as_meal_of_day
              (filter (fun r => String.eqb (Meals.date r) date) rows))
    /\ StronglySorted
         (fun a b => String.leb (meal_of_day_timestamp a)
                                (meal_of_day_timestamp b) = true)
         listing
    /\ (listing = [] <-> forall r, In r rows -> Meals.date r <> date).
Proof.
  eexists. split; [reflexivity |]. split; [| split].
  - apply Permutation_map. apply order_by_permutation.
  - apply StronglySorted_map.
    apply (order_by_sorted
             (fun a b => String.leb (Meals.timestamp a) (Meals.timestamp b))).
    + intros a b. apply String.leb_total.
    + intros a b c. apply string_leb_trans.
  - set (hits := filter (fun r => String.eqb (Meals.date r) date) rows).
    split.
    + intros E r Hr Hd. apply map_eq_nil in E.
      assert (Hin : In r hits)
        by (apply filter_In; split; [exact Hr | now apply String.eqb_eq]).
      apply (in_order_by
               (fun a b => String.leb (Meals.timestamp a) (Meals.timestamp b)))
        in Hin.
      rewrite E in Hin. exact Hin.
    + intros H.
      assert (Hnil : hits = []).
      { destruct hits as [| r hits'] eqn:E; [reflexivity |].
        assert (Hin : In r (filter (fun r => String.eqb (Meals.date r) date) rows))
          by (fold hits; rewrite E; now left).
        apply filter_In in Hin as [Hr Hd]. apply String.eqb_eq in Hd.
        now destruct (H r Hr). }
      rewrite Hnil. reflexivity.
Qed.

(** X2. On an open store [read_all_meals] returns, without changing the
    store, every stored row exactly once, ordered by date descending and,
    within a date, by timestamp descending. *)
Theorem read_all_meals_sorted
    (rows : list Meals.row) (sequence : Z) (users : option (list Users.row)) :
  exists listing : list logged_meal,
    read_all_meals (open_store rows sequence users)
    = (Returned listing, open_store rows sequence users)
    /\ Permutation listing (map as_logged_meal rows)
    /\ StronglySorted
         (fun a b =>
            String.ltb (logged_meal_date b) (logged_meal_date a) = true
            \/ (logged_meal_date a = logged_meal_date b
                /\ String.leb (logged_meal_timestamp b)
                              (logged_meal_timestamp a) = true))
         listing.
Proof.
  eexists. split; [reflexivity |]. split.
  - apply Permutation_map. apply order_by_permutation.
  - apply StronglySorted_map.
    assert (S := order_by_sorted Sqlite.date_desc_timestamp_desc
                   date_desc_timestamp_desc_total
                   date_desc_timestamp_desc_trans rows).
    eapply StronglySorted_weaken; [| exact S].
    intros a b H. apply date_desc_timestamp_desc_iff in H.
    simpl. rewrite string_ltb_iff. exact H.
Qed.

(* ===================================================================== *)
(** * Creating, reading back, and what a write leaves alone                *)
(* ===================================================================== *)

Lemma fold_left_max_bounds (l : list Z) (start : Z) :
  start <= fold_left Z.max l start
  /\ forall x, In x l -> x <= fold_left Z.max l start.
Proof.
  revert start. induction l as [| y l IH]; intros start; simpl.
  - split; [lia | tauto].
  - destruct (IH (Z.max start y)) as [H1 H2]. split; [lia |].
    intros x [<- | Hx]; [lia | now apply H2].
Qed.

Lemma create_meal_open (rows : list Meals.row) (sequence : Z)
    (users : option (list Users.row)) (now : datetime)
    (date meal_type food_name : string) (calories : float)
    (serving_size notes : string) :
  Float.is_nan calories = false ->
  create_meal now date meal_type food_name calories serving_size notes
              (open_store rows sequence users)
  = (Returned true,
     open_store
       (rows ++ [Meals.mkRow (fold_left Z.max (map Meals.id rows) sequence + 1)
                             date meal_type food_name
                             (Sqlite.stored_real calories)
                             (Some serving_size) (Some notes)
                             (Datetime.isoformat now)])%list
       (fold_left Z.max (map Meals.id rows) sequence + 1) users).
Proof.
  intros Hnum.
  unfold create_meal, open_store, try_except_sqlite3, bind, cursor, commit,
    use_connection, execute, Sqlite.INSERT_meals, ret; simpl.
  rewrite Hnum. reflexivity.
Qed.


Lemma read_meals_by_date_open (rows : list Meals.row) (sequence : Z)
    (users : option (list Users.row)) (date : string) :
  read_meals_by_date date (open_store rows sequence users)
  = (Returned
       (map as_meal_of_day
            (Sqlite.order_by
               (fun a b => String.leb (Meals.timestamp a) (Meals.timestamp b))
               (filter (fun r => String.eqb (Meals.date r) date) rows))),
     open_store rows sequence users).
Proof. reflexivity. Qed.



Lemma filter_date_after_update (f : Meals.row -> Meals.row) (meal_id : Z)
    (date : string) (rows : list Meals.row) :
  (forall r, Meals.date (f r) = Meals.date r) ->
  (forall r, In r rows -> Meals.id r = meal_id -> Meals.date r <> date) ->
  filter (fun r => String.eqb (Meals.date r) date)
         (map (fun r => if Meals.id r =? meal_id then f r else r) rows)
  = filter (fun r => String.eqb (Meals.date r) date) rows.
Proof.
  intros Hf. induction rows as [| r rows IH]; intros H; simpl.
  - reflexivity.
  - rewrite IH by (intros x Hx; apply H; now right).
    destruct (Z.eqb_spec (Meals.id r) meal_id) as [E | N].
    + rewrite Hf.
      destruct (String.eqb_spec (Meals.date r) date) as [D | _];
        [| reflexivity].
      destruct (H r (or_introl eq_refl) E D).
    + reflexivity.
Qed.

Lemma filter_date_after_delete (meal_id : Z) (date : string)
    (rows : list Meals.row) :
  (forall r, In r rows -> Meals.id r = meal_id -> Meals.date r <> date) ->
  filter (fun r => String.eqb (Meals.date r) date)
         (filter (fun r => negb (Meals.id r =? meal_id)) rows)
  = filter (fun r => String.eqb (Meals.date r) date) rows.
Proof.
  induction rows as [| r rows IH]; intros H; simpl.
  - reflexivity.
  - assert (IH' := IH (fun x Hx => H x (or_intror Hx))).
    destruct (Z.eqb_spec (Meals.id r) meal_id) as [E | N]; simpl.
    + rewrite IH'.
      destruct (String.eqb_spec (Meals.date r) date) as [D | _];
        [| reflexivity].
      destruct (H r (or_introl eq_refl) E D).
    + now rewrite IH'.
Qed.

(** X5. [update_meal] and [delete_meal] of an id none of whose rows has
    the date [date] leave [get_daily_calories date] and
    [read_meals_by_date date] as they were. *)
Theorem writes_keep_other_days
    (rows : list Meals.row) (sequence : Z) (users : option (list Users.row))
    (meal_id : Z) (meal_type food_name : string) (calories : float)
    (serving_size notes : string) (date : string) :
  (forall r, In r rows -> Meals.id r = meal_id -> Meals.date r <> date) ->
  let before := open_store rows sequence users in
  let updated :=
    snd (update_meal meal_id meal_type food_name calories serving_size notes
                     before) in
  let deleted := snd (delete_meal meal_id before) in
  get_daily_calories date updated
  = (fst (get_daily_calories date before), updated)
  /\ read_meals_by_date date updated
     = (fst (read_meals_by_date date before), updated)
  /\ get_daily_calories date deleted
     = (fst (get_daily_calories date before), deleted)
  /\ read_meals_by_date date deleted
     = (fst (read_meals_by_date date before), deleted).
Proof.
  intros H before updated deleted. subst before updated deleted.
  assert (Hdel :
    exists rows',
      snd (delete_meal meal_id (open_store rows sequence users))
      = open_store rows' sequence users
      /\ filter (fun r => String.eqb (Meals.date r) date) rows'
         = filter (fun r => String.eqb (Meals.date r) date) rows).
  { destruct (bindable meal_id rows) eqn:B.
    - rewrite delete_meal_open by exact B.
      eexists. split; [reflexivity |].
      apply filter_date_after_delete, H.
    - rewrite delete_meal_unbound by exact B.
      exists rows. split; reflexivity. }
  assert (Hupd :
    exists rows',
      snd (update_meal meal_id meal_type food_name calories serving_size notes
                       (open_store rows sequence users))
      = open_store rows' sequence users
      /\ filter (fun r => String.eqb (Meals.date r) date) rows'
         = filter (fun r => String.eqb (Meals.date r) date) rows).
  { destruct (bindable meal_id rows) eqn:B.
    - rewrite update_meal_open by exact B.
      destruct (Float.is_nan calories
                && existsb (fun r => Meals.id r =? meal_id) rows); simpl.
      + exists rows. split; reflexivity.
      + eexists. split; [reflexivity |].
        apply filter_date_after_update; [reflexivity | exact H].
    - rewrite update_meal_unbound by exact B.
      exists rows. split; reflexivity. }
  destruct Hdel as (rd & -> & Hd). destruct Hupd as (ru & -> & Hu).
  rewrite !get_daily_calories_open, !read_meals_by_date_open. simpl fst.
  unfold daily_total. rewrite Hd, Hu.
  repeat split.
Qed.

(* ===================================================================== *)
(** * Reads, the weekly series, and failing connections                    *)
(* ===================================================================== *)

Lemma get_daily_calories_keeps_manager (date : string) (self : DatabaseManager) :
  snd (get_daily_calories date self) = self.
Proof.
  destruct self as [[[|] |] [| | [[rows |] sequence users]]]; try reflexivity.
  unfold get_daily_calories, try_except_sqlite3, bind, cursor, use_connection,
    execute, Sqlite.SELECT_SUM_calories, ret; simpl.
  destruct (filter (fun r => String.eqb (Meals.date r) date) rows);
    [reflexivity |].
  match goal with
  | |- context [Float.is_nan ?x] => destruct (Float.is_nan x)
  end; reflexivity.
Qed.

Lemma weekly_loop_keeps_manager (now : Z -> datetime) (indices : list Z)
    (weekly_data : list (string * float)) (self : DatabaseManager) :
  snd (weekly_loop now indices weekly_data self) = self.
Proof.
  revert weekly_data. induction indices as [| i rest IH]; intros weekly_data.
  - reflexivity.
  - simpl. unfold bind.
    assert (K := get_daily_calories_keeps_manager
                   (Datetime.strftime_ymd (Datetime.minus_days (now i) i)) self).
    destruct (get_daily_calories
                (Datetime.strftime_ymd (Datetime.minus_days (now i) i)) self)
      as [[calories | e] self'].
    + simpl in K. subst self'. apply IH.
    + exact K.
Qed.

Lemma read_meals_by_date_keeps_manager (date : string) (self : DatabaseManager) :
  snd (read_meals_by_date date self) = self.
Proof.
  destruct self as [[[|] |] [| | [[rows |] sequence users]]]; reflexivity.
Qed.

Lemma read_all_meals_keeps_manager (self : DatabaseManager) :
  snd (read_all_meals self) = self.
Proof.
  destruct self as [[[|] |] [| | [[rows |] sequence users]]]; reflexivity.
Qed.

Lemma get_target_calories_keeps_manager (self : DatabaseManager) :
  snd (get_target_calories self) = self.
Proof.
  destruct self as [[[|] |] [| | [meals sequence [users |]]]];
    try reflexivity.
  unfold get_target_calories, try_except_sqlite3, bind, cursor,
    use_connection, execute, Sqlite.SELECT_target_calories, fetchone, ret,
    raise; simpl.
  destruct (filter (fun r => Users.id r =? 1) users) as [| [i n [t |]] l];
    reflexivity.
Qed.

(** X6. The five reading methods never change the manager or the file,
    whatever state the connection and the file are in, and whether they
    return or raise. *)
Theorem reads_keep_manager (self : DatabaseManager) (date : string)
    (now : Z -> datetime) :
  snd (read_meals_by_date date self) = self
  /\ snd (read_all_meals self) = self
  /\ snd (get_daily_calories date self) = self
  /\ snd (get_weekly_data now self) = self
  /\ snd (get_target_calories self) = self.
Proof.
  split; [| split; [| split; [| split]]].
  - apply read_meals_by_date_keeps_manager.
  - apply read_all_meals_keeps_manager.
  - apply get_daily_calories_keeps_manager.
  - apply weekly_loop_keeps_manager.
  - apply get_target_calories_keeps_manager.
Qed.

(** X7. When the calendar day does not change while the loop runs,
    [get_weekly_data] on an open store returns exactly seven pairs whose
    dates are the seven days ending today, oldest first; each total is
    what [get_daily_calories] returns for that date, and 0.0 for a date
    without meals. *)
Theorem get_weekly_data_steady_clock
    (rows : list Meals.row) (sequence : Z) (users : option (list Users.row))
    (now : Z -> datetime) (today : Z) :
  (forall i, 0 <= i <= 6 -> Datetime.ordinal (now i) = today) ->
  let self := open_store rows sequence users in
  exists weekly_data : list (string * float),
    get_weekly_data now self = (Returned weekly_data, self)
    /\ List.length weekly_data = 7%nat
    /\ map fst weekly_data = week_ending today
    /\ forall date total,
         In (date, total) weekly_data ->
         get_daily_calories date self = (Returned total, self)
         /\ ((forall r, In r rows -> Meals.date r <> date) ->
             total = Float.zero).
Proof.
  intros H self. subst self.
  exists (map (fun date => (date, daily_total rows date)) (week_ending today)).
  split; [| split; [| split]].
  - unfold get_weekly_data. rewrite weekly_loop_open.
    unfold week_ending, Datetime.strftime_ymd, Datetime.minus_days; simpl.
    rewrite !H by lia. reflexivity.
  - reflexivity.
  - reflexivity.
  - intros date total Hin. apply in_map_iff in Hin as (d & E & _).
    injection E as <- <-. split.
    + apply get_daily_calories_open.
    + apply daily_total_no_meals.
Qed.

(** X8. On a manager without a connection object (the file could not be
    opened) every method except [initialize_database] and [close] raises
    [AttributeError] and changes nothing; [close] returns normally. *)
Theorem absent_connection_raises_attribute_error
    (f : file_state) (now : datetime) (clock : Z -> datetime)
    (date meal_type food_name : string) (calories : float)
    (serving_size notes : string) (meal_id : Z) :
  let self := mkDatabaseManager None f in
  create_meal now date meal_type food_name calories serving_size notes self
  = (Raised AttributeError, self)
  /\ read_meals_by_date date self = (Raised AttributeError, self)
  /\ read_all_meals self = (Raised AttributeError, self)
  /\ update_meal meal_id meal_type food_name calories serving_size notes self
     = (Raised AttributeError, self)
  /\ delete_meal meal_id self = (Raised AttributeError, self)
  /\ get_daily_calories date self = (Raised AttributeError, self)
  /\ get_weekly_data clock self = (Raised AttributeError, self)
  /\ get_target_calories self = (Raised AttributeError, self)
  /\ close self = (Returned tt, self)
  /\ init Unopenable = mkDatabaseManager None Unopenable.
Proof.
  repeat split.
Qed.

(** X9. [close] never raises and leaves the file as it is; closing again
    changes nothing; and [initialize_database] after [close] gives back
    the open manager over the same meals, id counter and settings. *)
Theorem close_then_reopen
    (rows : list Meals.row) (sequence : Z) (u : Users.row)
    (us : list Users.row) :
  let self := open_store rows sequence (Some (u :: us)) in
  fst (close self) = Returned tt
  /\ file (snd (close self)) = file self
  /\ close (snd (close self)) = (Returned tt, snd (close self))
  /\ read_all_meals (snd (close self)) = (Returned [], snd (close self))
  /\ snd (initialize_database (snd (close self))) = self.
Proof.
  repeat split.
Qed.

(** X10. A NaN for the calories is refused by the store: [create_meal],
    and [update_meal] of an id that is stored, return [False] and leave
    the store exactly as it was. *)
Theorem nan_calories_are_refused
    (rows : list Meals.row) (sequence : Z) (users : option (list Users.row))
    (now : datetime) (date meal_type food_name : string)
    (serving_size notes : string) (meal_id : Z) :
  (exists r, In r rows /\ Meals.id r = meal_id) ->
  let self := open_store rows sequence users in
  create_meal now date meal_type food_name Float.nan serving_size notes self
  = (Returned false, self)
  /\ update_meal meal_id meal_type food_name Float.nan serving_size notes self
     = (Returned false, self).
Proof.
  intros Hstored self. subst self. split; [reflexivity |].
  apply existsb_stored in Hstored.
  rewrite update_meal_open
    by (unfold bindable; rewrite Hstored; apply orb_true_r).
  rewrite Hstored. reflexivity.
Qed.

(* ===================================================================== *)
(** * Invariants of the store over sequences of calls                      *)
(* ===================================================================== *)

Lemma ids_after_update (f : Meals.row -> Meals.row) (meal_id : Z)
    (rows : list Meals.row) :
  (forall r, Meals.id (f r) = Meals.id r) ->
  map Meals.id (map (fun r => if Meals.id r =? meal_id then f r else r) rows)
  = map Meals.id rows.
Proof.
  intros Hf. rewrite map_map. apply map_ext. intros r.
  destruct (Meals.id r =? meal_id); [apply Hf | reflexivity].
Qed.

Lemma ids_after_delete (p : Meals.row -> bool) (rows : list Meals.row) :
  NoDup (map Meals.id rows) -> NoDup (map Meals.id (filter p rows)).
Proof.
  induction rows as [| r rows IH]; simpl; intros H.
  - constructor.
  - inversion H as [| x l Hx Hl]; subst.
    destruct (p r); simpl; [constructor |]; auto.
    intros Hin. apply Hx. apply in_map_iff in Hin as (y & E & Hy).
    apply filter_In in Hy as [Hy _]. rewrite <- E. now apply in_map.
Qed.

Lemma ids_after_create (rows : list Meals.row) (r : Meals.row) :
  NoDup (map Meals.id rows) ->
  (forall x, In x rows -> Meals.id x < Meals.id r) ->
  NoDup (map Meals.id (rows ++ [r])).
Proof.
  intros Hnd Hlt. rewrite map_app. simpl.
  apply (Permutation_NoDup (Permutation_cons_append _ _)).
  constructor; [| exact Hnd].
  intros Hin. apply in_map_iff in Hin as (x & E & Hx).
  apply Hlt in Hx. lia.
Qed.

(** What one call does to a consistent store: it stays consistent, keeps
    a connection object if it had one, never lowers the id counter, and
    every id stored afterwards was stored before or is above the old
    counter. *)
Lemma perform_step (op : operation) (self : DatabaseManager) :
  consistent self ->
  consistent (perform op self)
  /\ (connection self <> None -> connection (perform op self) <> None)
  /\ id_counter self <= id_counter (perform op self)
  /\ forall i, In i (map Meals.id (stored_meals (perform op self))) ->
               In i (map Meals.id (stored_meals self)) \/ id_counter self < i.
Proof.
  intros (rows & sequence & Hf & Hseq & Hnd & Hb & Hnan).
  assert (Hself : consistent self)
    by (exists rows, sequence; repeat split; trivial; apply Hb; assumption).
  assert (Same : forall s', s' = self \/
                            s' = mkDatabaseManager (Some Open) (file self) \/
                            s' = mkDatabaseManager (Some Closed) (file self) ->
            consistent s'
            /\ (connection self <> None -> connection s' <> None)
            /\ id_counter self <= id_counter s'
            /\ forall i, In i (map Meals.id (stored_meals s')) ->
                 In i (map Meals.id (stored_meals self)) \/ id_counter self < i).
  { intros s' Hs'.
    assert (Hfile : file s' = file self)
      by (destruct Hs' as [-> | [-> | ->]]; reflexivity).
    split; [| split; [| split]].
    - exists rows, sequence. rewrite Hfile. repeat split; trivial; now apply Hb.
    - destruct Hs' as [-> | [-> | ->]]; [trivial | discriminate | discriminate].
    - unfold id_counter. rewrite Hfile. lia.
    - intros i Hi. left. unfold stored_meals in *. now rewrite Hfile in Hi. }
  destruct self as [c f]. simpl in Hf. subst f.
  destruct op as [| now date meal_type food_name calories serving_size notes
                  | date | | meal_id meal_type food_name calories serving_size
                              notes
                  | meal_id | date | now | |]; unfold perform.
  - (* Initialize *)
    apply Same. right; left. reflexivity.
  - (* CreateMeal *)
    destruct c as [[|] |].
    + destruct (Float.is_nan calories) eqn:Hnum.
      * apply Same. left.
        unfold create_meal, try_except_sqlite3, bind, cursor, commit,
          use_connection, execute, Sqlite.INSERT_meals, ret; simpl.
        rewrite Hnum. reflexivity.
      * change (mkDatabaseManager (Some Open)
                  (Database (Sqlite.mkDatabase (Some rows) sequence
                                               (Some [default_user]))))
          with (open_store rows sequence (Some [default_user])).
        rewrite create_meal_open by exact Hnum. simpl snd.
        unfold open_store.
        destruct (fold_left_max_bounds (map Meals.id rows) sequence)
          as [H1 H2].
        set (new_id := fold_left Z.max (map Meals.id rows) sequence + 1) in *.
        assert (Hlt : forall x, In x rows -> Meals.id x < new_id).
        { intros x Hx. apply (in_map Meals.id) in Hx. apply H2 in Hx.
          unfold new_id. lia. }
        split; [| split; [| split]].
        -- eexists _, new_id. split; [reflexivity |].
           split; [unfold new_id; lia |]. split; [| split].
           ++ apply ids_after_create; [exact Hnd | exact Hlt].
           ++ intros r Hr. apply in_app_or in Hr as [Hr | [<- | []]].
              ** specialize (Hb r Hr). specialize (Hlt r Hr). lia.
              ** simpl. unfold new_id. lia.
           ++ intros r Hr. apply in_app_or in Hr as [Hr | [<- | []]].
              ** now apply Hnan.
              ** simpl. now rewrite stored_real_nan.
        -- discriminate.
        -- unfold id_counter; simpl. unfold new_id. lia.
        -- intros i Hi. unfold stored_meals, id_counter in *; simpl in *.
           rewrite map_app in Hi.
           apply in_app_or in Hi as [Hi | [<- | []]].
           ++ now left.
           ++ right. simpl. unfold new_id. lia.
    + apply Same. left. reflexivity.
    + apply Same. left. reflexivity.
  - (* ReadMealsByDate *)
    rewrite read_meals_by_date_keeps_manager. apply Same. now left.
  - (* ReadAllMeals *)
    rewrite read_all_meals_keeps_manager. apply Same. now left.
  - (* UpdateMeal *)
    destruct c as [[|] |].
    + change (mkDatabaseManager (Some Open)
                (Database (Sqlite.mkDatabase (Some rows) sequence
                                             (Some [default_user]))))
        with (open_store rows sequence (Some [default_user])).
      destruct (bindable meal_id rows) eqn:B;
        [| rewrite update_meal_unbound by exact B; apply Same; now left].
      rewrite update_meal_open by exact B.
      destruct (Float.is_nan calories
                && existsb (fun r => Meals.id r =? meal_id) rows) eqn:Hrej.
      * apply Same. now left.
      * simpl snd. unfold open_store.
        assert (Hids := ids_after_update
                          (Sqlite.set_fields meal_type food_name calories
                                             serving_size notes)
                          meal_id rows (fun r => eq_refl)).
        split; [| split; [| split]].
        -- eexists _, sequence. split; [reflexivity |].
           split; [exact Hseq |]. split; [| split].
           ++ rewrite Hids. exact Hnd.
           ++ intros r' Hr'. apply in_map_iff in Hr' as (r & <- & Hr).
              destruct (Meals.id r =? meal_id); simpl; now apply Hb.
           ++ intros r' Hr'. apply in_map_iff in Hr' as (r & <- & Hr).
              destruct (Meals.id r =? meal_id) eqn:Hm; [| now apply Hnan].
              simpl. rewrite stored_real_nan.
              apply andb_false_iff in Hrej as [Hrej | Hrej];
                [exact Hrej |].
              assert (T : existsb (fun x => Meals.id x =? meal_id) rows = true)
                by (apply existsb_exists; exists r; now split).
              congruence.
        -- discriminate.
        -- unfold id_counter; simpl. lia.
        -- intros i Hi. left. unfold stored_meals in *; simpl in *.
           now rewrite Hids in Hi.
    + apply Same. left. reflexivity.
    + apply Same. left. reflexivity.
  - (* DeleteMeal *)
    destruct c as [[|] |].
    + change (mkDatabaseManager (Some Open)
                (Database (Sqlite.mkDatabase (Some rows) sequence
                                             (Some [default_user]))))
        with (open_store rows sequence (Some [default_user])).
      destruct (bindable meal_id rows) eqn:B;
        [| rewrite delete_meal_unbound by exact B; apply Same; now left].
      rewrite delete_meal_open by exact B.
      simpl snd. unfold open_store.
      split; [| split; [| split]].
      * eexists _, sequence. split; [reflexivity |].
        split; [exact Hseq |]. split; [| split].
        -- now apply ids_after_delete.
        -- intros r Hr. apply filter_In in Hr as [Hr _]. now apply Hb.
        -- intros r Hr. apply filter_In in Hr as [Hr _]. now apply Hnan.
      * discriminate.
      * unfold id_counter; simpl. lia.
      * intros i Hi. left. unfold stored_meals in *; simpl in *.
        apply in_map_iff in Hi as (r & <- & Hr).
        apply filter_In in Hr as [Hr _]. now apply in_map.
    + apply Same. left. reflexivity.
    + apply Same. left. reflexivity.
  - (* GetDailyCalories *)
    rewrite get_daily_calories_keeps_manager. apply Same. now left.
  - (* GetWeeklyData *)
    unfold get_weekly_data. rewrite weekly_loop_keeps_manager.
    apply Same. now left.
  - (* GetTargetCalories *)
    rewrite get_target_calories_keeps_manager. apply Same. now left.
  - (* Close *)
    destruct c as [c |].
    + apply Same. right; right. reflexivity.
    + apply Same. left. reflexivity.
Qed.

Lemma perform_all_steps (ops : list operation) (self : DatabaseManager) :
  consistent self ->
  consistent (perform_all ops self)
  /\ (connection self <> None -> connection (perform_all ops self) <> None)
  /\ id_counter self <= id_counter (perform_all ops self)
  /\ forall i, In i (map Meals.id (stored_meals (perform_all ops self))) ->
               In i (map Meals.id (stored_meals self)) \/ id_counter self < i.
Proof.
  revert self. induction ops as [| op ops IH]; intros self H; simpl.
  - repeat split; trivial; try lia. intros i Hi. now left.
  - destruct (perform_step op self H) as (H1 & H2 & H3 & H4).
    destruct (IH (perform op self) H1) as (K1 & K2 & K3 & K4).
    repeat split; trivial.
    + intros Hc. now apply K2, H2.
    + lia.
    + intros i Hi. apply K4 in Hi as [Hi | Hi]; [| right; lia].
      apply H4 in Hi as [Hi | Hi]; [now left | right; lia].
Qed.

Lemma consistent_new_store : consistent (init (Database Sqlite.empty)).
Proof.
  exists [], 0.
  split; [reflexivity |]. split; [lia |]. split; [constructor |].
  split; intros r [].
Qed.

(** X11. After any sequence of method calls on a manager created over a
    new database file, both tables exist, the settings are still the
    single row (1, "User", 2000), the ids of the stored meals are
    distinct and lie between 1 and the id counter, no stored calories
    value is a NaN, and [get_target_calories] returns 2000. *)
Theorem store_stays_consistent (ops : list operation) :
  let self := perform_all ops (init (Database Sqlite.empty)) in
  consistent self
  /\ stored_users self = [default_user]
  /\ NoDup (map Meals.id (stored_meals self))
  /\ (forall r, In r (stored_meals self) ->
                1 <= Meals.id r <= id_counter self
                /\ Float.is_nan (Meals.calories r) = false)
  /\ fst (get_target_calories self) = Returned 2000.
Proof.
  intros self.
  destruct (perform_all_steps ops _ consistent_new_store)
    as (H & Hc & _ & _).
  fold self in H, Hc.
  assert (Hconn : connection self <> None) by (apply Hc; discriminate).
  split; [exact H |].
  destruct H as (rows & sequence & Hf & Hseq & Hnd & Hb & Hnan).
  destruct self as [c f]. simpl in Hf. subst f.
  unfold stored_users, stored_meals, id_counter; simpl.
  split; [reflexivity |]. split; [exact Hnd |]. split.
  - intros r Hr. split; [now apply Hb | now apply Hnan].
  - destruct c as [[|] |]; [reflexivity | reflexivity |].
    now destruct Hconn.
Qed.

(** X12. Ids are never reused: on a consistent store the id counter never
    decreases, and an id that is not above the counter and is not stored
    (it was deleted, or skipped) is not stored after any further sequence
    of method calls either. *)
Theorem ids_are_never_reused (ops : list operation) (self : DatabaseManager)
    (i : Z) :
  consistent self ->
  i <= id_counter self ->
  ~ In i (map Meals.id (stored_meals self)) ->
  id_counter self <= id_counter (perform_all ops self)
  /\ ~ In i (map Meals.id (stored_meals (perform_all ops self))).
Proof.
  intros H Hi Hout.
  destruct (perform_all_steps ops self H) as (_ & _ & Hmono & Hids).
  split; [exact Hmono |].
  intros Hin. apply Hids in Hin as [Hin | Hin]; [now apply Hout | lia].
Qed.

Lemma unique_id_same_row (rows : list Meals.row) (x y : Meals.row) :
  NoDup (map Meals.id rows) ->
  In x rows -> In y rows -> Meals.id x = Meals.id y -> x = y.
Proof.
  induction rows as [| r rows IH]; simpl; intros Hnd Hx Hy E.
  - destruct Hx.
  - inversion Hnd as [| i l Hnotin Hnd']; subst.
    destruct Hx as [-> | Hx]; destruct Hy as [-> | Hy].
    + reflexivity.
    + exfalso. apply Hnotin. rewrite E. now apply in_map.
    + exfalso. apply Hnotin. rewrite <- E. now apply in_map.
    + now apply IH.
Qed.

(** X13. On an open store with distinct ids, after [update_meal] of a
    stored entry with a calories value that is a number,
    [read_all_meals] lists that entry with the five new field values (the
    calories as the REAL column stores them) and its original date and
    timestamp, and lists no other entry with that id. *)
Theorem update_meal_then_read_all
    (rows : list Meals.row) (sequence : Z) (users : option (list Users.row))
    (r : Meals.row) (meal_type food_name : string) (calories : float)
    (serving_size notes : string) :
  NoDup (map Meals.id rows) ->
  In r rows ->
  Float.is_nan calories = false ->
  let after :=
    snd (update_meal (Meals.id r) meal_type food_name calories serving_size
                     notes (open_store rows sequence users)) in
  let updated : logged_meal :=
    (Meals.id r, Meals.date r, meal_type, food_name,
     Sqlite.stored_real calories,
     Some serving_size, Some notes, Meals.timestamp r) in
  exists listing : list logged_meal,
    read_all_meals after = (Returned listing, after)
    /\ In updated listing
    /\ forall t, In t listing -> logged_meal_id t = Meals.id r -> t = updated.
Proof.
  intros Hnd Hr Hnum after updated.
  assert (E : after
              = open_store
                  (map (fun x =>
                          if Meals.id x =? Meals.id r
                          then Sqlite.set_fields meal_type food_name calories
                                                 serving_size notes x
                          else x) rows)
                  sequence users).
  { subst after.
    rewrite update_meal_open.
    - rewrite Hnum. reflexivity.
    - unfold bindable. apply orb_true_iff. right.
      apply existsb_stored. now exists r. }
  rewrite E. eexists. split; [reflexivity |]. split.
  - apply (in_map as_logged_meal
             _ (Sqlite.set_fields meal_type food_name calories serving_size
                                  notes r)).
    apply in_order_by. apply in_map_iff. exists r. split; [| exact Hr].
    now rewrite Z.eqb_refl.
  - intros t Ht Hid. apply in_map_iff in Ht as (r' & <- & Hr').
    apply in_order_by in Hr'. apply in_map_iff in Hr' as (x & <- & Hx).
    destruct (Z.eqb_spec (Meals.id x) (Meals.id r)) as [Ex | Nx].
    + assert (x = r) by (now apply (unique_id_same_row rows)). subst x.
      reflexivity.
    + simpl in Hid. contradiction.
Qed.

(* ===================================================================== *)
(** * More on [filter_logs_by_meal_type]                                   *)
(* ===================================================================== *)

(** X14. For meal types and queries that are ASCII text, filtering
    composes: a second filter by a meal type equal up to case changes
    nothing, a second filter by any other meal type leaves nothing; the
    filter of a concatenation is the concatenation of the filters; and
    every entry is selected by its own meal type. *)
Theorem filter_logs_by_meal_type_composes
    (logs more : list UserLog) (meal_type other : string) :
  ascii_text meal_type ->
  ascii_text other ->
  Forall (fun log => ascii_text (Models.meal_type log)) (logs ++ more) ->
  (equal_up_to_case meal_type other ->
   filter_logs_by_meal_type (filter_logs_by_meal_type logs meal_type) other
   = filter_logs_by_meal_type logs meal_type)
  /\ (~ equal_up_to_case meal_type other ->
      filter_logs_by_meal_type (filter_logs_by_meal_type logs meal_type) other
      = [])
  /\ filter_logs_by_meal_type (logs ++ more) meal_type
     = (filter_logs_by_meal_type logs meal_type
        ++ filter_logs_by_meal_type more meal_type)%list
  /\ forall log, In log logs ->
                 In log (filter_logs_by_meal_type logs (Models.meal_type log)).
Proof.
  intros _ _ _. split; [| split; [| split]].
  - intros E. apply lower_eq_iff in E.
    rewrite !filter_logs_by_meal_type_filter. rewrite <- E.
    induction logs as [| log rest IH]; simpl; [reflexivity |].
    destruct (String.eqb (Str.lower (Models.meal_type log))
                         (Str.lower meal_type)) eqn:M; simpl.
    + rewrite M. now rewrite IH.
    + exact IH.
  - intros N. rewrite !filter_logs_by_meal_type_filter.
    induction logs as [| log rest IH]; simpl; [reflexivity |].
    destruct (String.eqb_spec (Str.lower (Models.meal_type log))
                              (Str.lower meal_type)) as [M | _]; simpl.
    + destruct (String.eqb_spec (Str.lower (Models.meal_type log))
                                (Str.lower other)) as [M' | _].
      * exfalso. apply N. apply lower_eq_iff. congruence.
      * exact IH.
    + exact IH.
  - rewrite !filter_logs_by_meal_type_filter. apply filter_app.
  - intros log Hin. rewrite filter_logs_by_meal_type_filter.
    apply filter_In. split; [exact Hin | apply String.eqb_refl].
Qed.

(* ===================================================================== *)
(** * The form handlers of [CalQApp]                                       *)
(* ===================================================================== *)

Lemma stored_real_leb (c : float) :
  float_leb (Float.of_Z 0) (Sqlite.stored_real c)
  = float_leb (Float.of_Z 0) c.
Proof.
  change (Float.of_Z 0) with (S754_zero false).
  destruct c as [[] | | |]; reflexivity.
Qed.

Lemma not_below_zero (c : float) :
  float_ltb c (Float.of_Z 0) = false ->
  Float.is_nan c = false ->
  float_leb (Float.of_Z 0) c = true.
Proof.
  change (Float.of_Z 0) with (S754_zero false).
  destruct c as [s | [|] | | [|] m e]; simpl; intros H1 H2;
    try reflexivity; discriminate.
Qed.

Lemma at_least_zero_is_number (c : float) :
  float_leb (Float.of_Z 0) c = true -> Float.is_nan c = false.
Proof.
  change (Float.of_Z 0) with (S754_zero false).
  destruct c; simpl; intros H; try reflexivity; discriminate.
Qed.

Lemma parse_calories_some (calories_str : string) (calories : float) :
  parse_calories calories_str = Some calories ->
  FloatParse.float_of_string calories_str = Some calories
  /\ float_ltb calories (Float.of_Z 0) = false.
Proof.
  unfold parse_calories.
  destruct (FloatParse.float_of_string calories_str) as [c |];
    [| discriminate].
  destruct (float_ltb c (Float.of_Z 0)) eqn:E; [discriminate |].
  intros [= <-]. now split.
Qed.

Lemma is_empty_false (s : string) : is_empty s = false <-> s <> "".
Proof.
  destruct s; simpl; split; intros H; congruence.
Qed.

(** X15. Both submit handlers refuse a form whose food name or calories
    text is blank, or whose calories text is not a number or is a
    negative number: nothing is stored and the application state is left
    exactly as it was. *)
Theorem submit_refuses_invalid_form
    (now : datetime) (form : meal_form) (app : CalQApp) :
  py_strip (entry_food_name form) = ""
  \/ py_strip (entry_calories form) = ""
  \/ FloatParse.float_of_string (py_strip (entry_calories form)) = None
  \/ (exists calories,
        FloatParse.float_of_string (py_strip (entry_calories form))
        = Some calories
        /\ float_ltb calories (Float.of_Z 0) = true) ->
  create_meal_submit now form app = app
  /\ update_meal_submit form app = app.
Proof.
  intros H. unfold create_meal_submit, update_meal_submit, parse_calories.
  destruct H as [H | [H | [H | (c & H & Hneg)]]].
  - rewrite H. split; reflexivity.
  - rewrite H, orb_true_r. split; reflexivity.
  - rewrite H.
    destruct (is_empty (py_strip (entry_food_name form))
              || is_empty (py_strip (entry_calories form)));
      split; reflexivity.
  - rewrite H, Hneg.
    destruct (is_empty (py_strip (entry_food_name form))
              || is_empty (py_strip (entry_calories form)));
      split; reflexivity.
Qed.

(** X16. On an open store [create_meal_submit] either stores nothing, or
    appends one row built from the stripped fields of the form: its food
    name is not empty, its calories are the number the text denotes, as
    the REAL column stores it (a negative zero as 0.0), which is not below
    zero, its id is new, and the edit state is cleared. *)
Theorem create_meal_submit_stores_checked_meal
    (rows : list Meals.row) (sequence : Z) (users : option (list Users.row))
    (editing : option Z) (now : datetime) (form : meal_form) :
  let app := mkCalQApp (open_store rows sequence users) editing in
  let app' := create_meal_submit now form app in
  app' = app
  \/ exists (new_id : Z) (calories : float),
       app' = mkCalQApp
                (open_store
                   (rows ++ [Meals.mkRow new_id
                               (py_strip (entry_date form))
                               (entry_meal_type form)
                               (py_strip (entry_food_name form))
                               (Sqlite.stored_real calories)
                               (Some (py_strip (entry_serving_size form)))
                               (Some (py_strip (entry_notes form)))
                               (Datetime.isoformat now)])%list
                   new_id users)
                None
       /\ py_strip (entry_food_name form) <> ""
       /\ FloatParse.float_of_string (py_strip (entry_calories form))
          = Some calories
       /\ float_leb (Float.of_Z 0) calories = true
       /\ float_leb (Float.of_Z 0) (Sqlite.stored_real calories) = true
       /\ Float.eqb (Sqlite.stored_real calories) calories = true
       /\ sequence < new_id
       /\ forall r, In r rows -> Meals.id r < new_id.
Proof.
  intros app app'. subst app app'. unfold create_meal_submit.
  destruct (is_empty (py_strip (entry_food_name form))) eqn:Hname;
    [now left |].
  destruct (is_empty (py_strip (entry_calories form))) eqn:Hcal;
    [now left |].
  simpl orb. cbv iota.
  destruct (parse_calories (py_strip (entry_calories form)))
    as [calories |] eqn:Hparse; [| now left].
  apply parse_calories_some in Hparse as [Hfloat Hneg].
  simpl db.
  destruct (Float.is_nan calories) eqn:Hnan.
  - left.
    unfold create_meal, open_store, try_except_sqlite3, bind, cursor, commit,
      use_connection, execute, Sqlite.INSERT_meals, ret; simpl.
    rewrite Hnan. reflexivity.
  - right. rewrite create_meal_open by exact Hnan.
    destruct (fold_left_max_bounds (map Meals.id rows) sequence) as [H1 H2].
    eexists _, calories. split; [reflexivity |].
    split; [now apply is_empty_false |].
    split; [exact Hfloat |].
    split; [now apply not_below_zero |].
    split; [rewrite stored_real_leb; now apply not_below_zero |].
    split; [apply stored_real_value, Hnan |].
    split; [lia |].
    intros r Hr. apply (in_map Meals.id) in Hr. apply H2 in Hr. lia.
Qed.

(** The rows stored after one call are the rows stored before, the row a
    successful [create_meal] appends, or rows rewritten by a successful
    [update_meal]; a property of rows that these keep is kept. *)
Lemma perform_keeps_rows (P : Meals.row -> Prop) (op : operation)
    (self : DatabaseManager) :
  (forall r, In r (stored_meals self) -> P r) ->
  (forall now date meal_type food_name calories serving_size notes i,
      op = CreateMeal now date meal_type food_name calories serving_size notes ->
      Float.is_nan calories = false ->
      P (Meals.mkRow i date meal_type food_name (Sqlite.stored_real calories)
                     (Some serving_size) (Some notes)
                     (Datetime.isoformat now))) ->
  (forall meal_id meal_type food_name calories serving_size notes r,
      op = UpdateMeal meal_id meal_type food_name calories serving_size notes ->
      Float.is_nan calories = false ->
      In r (stored_meals self) ->
      P (Sqlite.set_fields meal_type food_name calories serving_size notes r)) ->
  forall r, In r (stored_meals (perform op self)) -> P r.
Proof.
  intros Hold Hnew Hupd.
  destruct op as [| now date meal_type food_name calories serving_size notes
                  | date | | meal_id meal_type food_name calories serving_size
                              notes
                  | meal_id | date | now | |]; unfold perform.
  - (* Initialize *)
    destruct self as [c [| | [[rows |] sequence [[| u us] |]]]];
      unfold stored_meals in *; simpl in *; intros r Hr;
      solve [contradiction | now apply Hold].
  - (* CreateMeal *)
    destruct self as [[[|] |] [| | [[rows |] sequence users]]];
      try (unfold stored_meals in *; simpl in *; intros r Hr;
           solve [contradiction | now apply Hold]).
    destruct (Float.is_nan calories) eqn:Hnum.
    + unfold create_meal, try_except_sqlite3, bind, cursor, commit,
        use_connection, execute, Sqlite.INSERT_meals, ret; simpl.
      rewrite Hnum. exact Hold.
    + change (mkDatabaseManager (Some Open)
                (Database (Sqlite.mkDatabase (Some rows) sequence users)))
        with (open_store rows sequence users).
      rewrite create_meal_open by exact Hnum.
      unfold stored_meals, open_store in *; simpl in *.
      intros r Hr. apply in_app_or in Hr as [Hr | [<- | []]].
      * now apply Hold.
      * now apply (Hnew now date meal_type food_name calories serving_size
                        notes).
  - rewrite read_meals_by_date_keeps_manager. exact Hold.
  - rewrite read_all_meals_keeps_manager. exact Hold.
  - (* UpdateMeal *)
    destruct self as [[[|] |] [| | [[rows |] sequence users]]];
      try (unfold stored_meals in *; simpl in *; intros r Hr;
           solve [contradiction | now apply Hold]).
    change (mkDatabaseManager (Some Open)
              (Database (Sqlite.mkDatabase (Some rows) sequence users)))
      with (open_store rows sequence users) in *.
    destruct (bindable meal_id rows) eqn:B;
      [| rewrite update_meal_unbound by exact B; exact Hold].
    rewrite update_meal_open by exact B.
    destruct (Float.is_nan calories
              && existsb (fun r => Meals.id r =? meal_id) rows) eqn:Hrej;
      [exact Hold |].
    unfold stored_meals, open_store in *; simpl in *.
    intros r' Hr'. apply in_map_iff in Hr' as (r & <- & Hr).
    destruct (Meals.id r =? meal_id) eqn:Hm; [| now apply Hold].
    apply (Hupd meal_id meal_type food_name calories serving_size notes r);
      trivial.
    apply andb_false_iff in Hrej as [Hrej | Hrej]; [exact Hrej |].
    assert (T : existsb (fun x => Meals.id x =? meal_id) rows = true)
      by (apply existsb_exists; exists r; now split).
    congruence.
  - (* DeleteMeal *)
    destruct self as [[[|] |] [| | [[rows |] sequence users]]];
      try (unfold stored_meals in *; simpl in *; intros r Hr;
           solve [contradiction | now apply Hold]).
    change (mkDatabaseManager (Some Open)
              (Database (Sqlite.mkDatabase (Some rows) sequence users)))
      with (open_store rows sequence users) in *.
    destruct (bindable meal_id rows) eqn:B;
      [| rewrite delete_meal_unbound by exact B; exact Hold].
    rewrite delete_meal_open by exact B.
    unfold stored_meals, open_store in *; simpl in *.
    intros r Hr. apply filter_In in Hr as [Hr _]. now apply Hold.
  - rewrite get_daily_calories_keeps_manager. exact Hold.
  - unfold get_weekly_data. rewrite weekly_loop_keeps_manager. exact Hold.
  - rewrite get_target_calories_keeps_manager. exact Hold.
  - (* Close *)
    destruct self as [[c |] f]; exact Hold.
Qed.

Lemma db_after_create_meal_submit (now : datetime) (form : meal_form)
    (app : CalQApp) :
  db (create_meal_submit now form app) = db app
  \/ exists calories,
       py_strip (entry_food_name form) <> ""
       /\ float_ltb calories (Float.of_Z 0) = false
       /\ db (create_meal_submit now form app)
          = perform (CreateMeal now (py_strip (entry_date form))
                                (entry_meal_type form)
                                (py_strip (entry_food_name form)) calories
                                (py_strip (entry_serving_size form))
                                (py_strip (entry_notes form)))
                    (db app).
Proof.
  unfold create_meal_submit.
  destruct (is_empty (py_strip (entry_food_name form))) eqn:Hname;
    [now left |].
  destruct (is_empty (py_strip (entry_calories form))); [now left |].
  simpl orb. cbv iota.
  destruct (parse_calories (py_strip (entry_calories form)))
    as [calories |] eqn:Hparse; [| now left].
  apply parse_calories_some in Hparse as [_ Hneg].
  right. exists calories.
  split; [now apply is_empty_false |]. split; [exact Hneg |].
  unfold perform.
  destruct (create_meal now (py_strip (entry_date form)) (entry_meal_type form)
              (py_strip (entry_food_name form)) calories
              (py_strip (entry_serving_size form))
              (py_strip (entry_notes form)) (db app))
    as [[[|] | e] db']; reflexivity.
Qed.

Lemma db_after_update_meal_submit (form : meal_form) (app : CalQApp) :
  stored_meals (db (update_meal_submit form app)) = stored_meals (db app)
  \/ exists meal_id calories,
       py_strip (entry_food_name form) <> ""
       /\ float_ltb calories (Float.of_Z 0) = false
       /\ db (update_meal_submit form app)
          = perform (UpdateMeal meal_id (entry_meal_type form)
                                (py_strip (entry_food_name form)) calories
                                (py_strip (entry_serving_size form))
                                (py_strip (entry_notes form)))
                    (db app).
Proof.
  unfold update_meal_submit.
  destruct (is_empty (py_strip (entry_food_name form))) eqn:Hname;
    [now left |].
  destruct (is_empty (py_strip (entry_calories form))); [now left |].
  simpl orb. cbv iota.
  destruct (parse_calories (py_strip (entry_calories form)))
    as [calories |] eqn:Hparse; [| now left].
  apply parse_calories_some in Hparse as [_ Hneg].
  destruct (editing_meal_id app) as [meal_id |]; simpl update_meal_optional.
  - right. exists meal_id, calories.
    split; [now apply is_empty_false |]. split; [exact Hneg |].
    unfold perform.
    destruct (update_meal meal_id (entry_meal_type form)
                (py_strip (entry_food_name form)) calories
                (py_strip (entry_serving_size form))
                (py_strip (entry_notes form)) (db app))
      as [[[|] | e] db']; reflexivity.
  - left.
    destruct (db app) as [[[|] |] [| | [[rows |] sequence users]]];
      reflexivity.
Qed.

Lemma ui_step_keeps_meals_well_formed (action : ui_action) (app : CalQApp) :
  (forall r, In r (stored_meals (db app)) -> well_formed_meal r) ->
  forall r, In r (stored_meals (db (ui_step action app))) ->
            well_formed_meal r.
Proof.
  intros Hold.
  destruct action as [now form | form | meal_id | | confirmed meal_id |];
    simpl ui_step; try exact Hold.
  - destruct (db_after_create_meal_submit now form app)
      as [-> | (calories & Hname & Hneg & ->)]; [exact Hold |].
    apply perform_keeps_rows; [exact Hold | |].
    + intros ? ? ? ? ? ? ? i [= <- <- <- <- <- <- <-] Hnum.
      split; [exact Hname |]. simpl.
      rewrite stored_real_leb. now apply not_below_zero.
    + intros; discriminate.
  - destruct (db_after_update_meal_submit form app)
      as [-> | (meal_id & calories & Hname & Hneg & ->)]; [exact Hold |].
    apply perform_keeps_rows; [exact Hold | |].
    + intros; discriminate.
    + intros ? ? ? ? ? ? r [= <- <- <- <- <- <-] Hnum _.
      split; [exact Hname |]. simpl.
      rewrite stored_real_leb. now apply not_below_zero.
  - unfold delete_meal_confirm. destruct confirmed; [| exact Hold].
    assert (E : db (match delete_meal meal_id (db app) with
                    | (Returned true, db') =>
                        show_dashboard (mkCalQApp db' (editing_meal_id app))
                    | (_, db') => mkCalQApp db' (editing_meal_id app)
                    end)
                = perform (DeleteMeal meal_id) (db app)).
    { unfold perform.
      destruct (delete_meal meal_id (db app)) as [[[|] | e] db'];
        reflexivity. }
    rewrite E. apply perform_keeps_rows; [exact Hold | |];
      intros; discriminate.
Qed.

(** X17. Whatever is done in the window of an application started over a
    new database file - submitting the add and edit forms, editing,
    cancelling, deleting - every stored meal has a food name that is not
    empty and calories that are a number not below zero. *)
Theorem ui_stores_only_well_formed_meals (actions : list ui_action) :
  forall r, In r (stored_meals (db (ui_run actions new_app))) ->
            Meals.food_name r <> ""
            /\ float_leb (Float.of_Z 0) (Meals.calories r) = true
            /\ Float.is_nan (Meals.calories r) = false.
Proof.
  assert (G : forall app,
             (forall r, In r (stored_meals (db app)) -> well_formed_meal r) ->
             forall r, In r (stored_meals (db (ui_run actions app))) ->
                       well_formed_meal r).
  { induction actions as [| action actions IH]; intros app H; simpl.
    - exact H.
    - apply IH. now apply ui_step_keeps_meals_well_formed. }
  intros r Hr. apply (G new_app) in Hr.
  - destruct Hr as [Hname Hcal].
    repeat split; trivial. now apply at_least_zero_is_number.
  - intros x [].
Qed.

(* ===================================================================== *)
(** * The form loader                                                     *)
(* ===================================================================== *)

Lemma read_all_meals_open (rows : list Meals.row) (sequence : Z)
    (users : option (list Users.row)) :
  read_all_meals (open_store rows sequence users)
  = (Returned (map as_logged_meal
                   (Sqlite.order_by Sqlite.date_desc_timestamp_desc rows)),
     open_store rows sequence users).
Proof. reflexivity. Qed.

(** X19. [load_meal_data] on an open store with distinct ids finds the
    stored entry whose id is being edited, with all its stored fields;
    it finds nothing when no entry is being edited or the id is not
    stored; and without a connection object it raises
    [AttributeError]. *)
Theorem load_meal_data_finds_edited_meal
    (rows : list Meals.row) (sequence : Z) (users : option (list Users.row)) :
  NoDup (map Meals.id rows) ->
  let store := open_store rows sequence users in
  (forall r, In r rows ->
     load_meal_data (mkCalQApp store (Some (Meals.id r)))
     = (Returned (Some (as_logged_meal r)),
        mkCalQApp store (Some (Meals.id r))))
  /\ (forall i, ~ In i (map Meals.id rows) ->
        load_meal_data (mkCalQApp store (Some i))
        = (Returned None, mkCalQApp store (Some i)))
  /\ load_meal_data (mkCalQApp store None)
     = (Returned None, mkCalQApp store None)
  /\ forall f editing,
       load_meal_data (mkCalQApp (mkDatabaseManager None f) editing)
       = (Raised AttributeError,
          mkCalQApp (mkDatabaseManager None f) editing).
Proof.
  intros Hnd store. subst store.
  split; [| split; [| split]].
  - intros r Hr. unfold load_meal_data. simpl db.
    rewrite read_all_meals_open. simpl editing_meal_id.
    destruct (find (fun meal => logged_meal_id meal =? Meals.id r)
                   (map as_logged_meal
                        (Sqlite.order_by Sqlite.date_desc_timestamp_desc rows)))
      as [t |] eqn:F.
    + apply find_some in F as [Ht Hid]. apply Z.eqb_eq in Hid.
      apply in_map_iff in Ht as (r' & <- & Hr'). apply in_order_by in Hr'.
      simpl in Hid.
      now rewrite (unique_id_same_row rows r' r Hnd Hr' Hr Hid).
    + exfalso.
      assert (Hin : In (as_logged_meal r)
                       (map as_logged_meal
                            (Sqlite.order_by Sqlite.date_desc_timestamp_desc
                                             rows)))
        by (apply in_map; now apply in_order_by).
      apply (find_none _ _ F) in Hin. simpl in Hin.
      now rewrite Z.eqb_refl in Hin.
  - intros i Hi. unfold load_meal_data. simpl db.
    rewrite read_all_meals_open. simpl editing_meal_id.
    destruct (find (fun meal => logged_meal_id meal =? i)
                   (map as_logged_meal
                        (Sqlite.order_by Sqlite.date_desc_timestamp_desc rows)))
      as [t |] eqn:F; [| reflexivity].
    exfalso. apply find_some in F as [Ht Hid]. apply Z.eqb_eq in Hid.
    apply in_map_iff in Ht as (r' & <- & Hr'). apply in_order_by in Hr'.
    simpl in Hid. apply Hi. rewrite <- Hid. now apply in_map.
  - unfold load_meal_data. simpl db. rewrite read_all_meals_open.
    simpl editing_meal_id.
    induction (map as_logged_meal
                   (Sqlite.order_by Sqlite.date_desc_timestamp_desc rows))
      as [| t l IH]; [reflexivity |].
    simpl. simpl in IH. injection IH as IH. now rewrite IH.
  - reflexivity.
Qed.

(* ===================================================================== *)
(** * The properties above on concrete inputs                              *)
(* ===================================================================== *)

Lemma sample_rows_distinct_ids : NoDup (map Meals.id sample_rows).
Proof.
  simpl. constructor.
  - intros [H | []]. discriminate H.
  - constructor; [intros [] | constructor].
Qed.



(** Updating or deleting the meal 2 of 2024-01-01 leaves 2024-01-02
    alone. *)
Lemma writes_keep_other_days_witness :
  let before := open_store sample_rows 2 (Some [default_user]) in
  let updated :=
    snd (update_meal 2 "Snacks" "Nuts" (Float.of_Z 10) "1" "salted" before) in
  let deleted := snd (delete_meal 2 before) in
  get_daily_calories "2024-01-02" updated
  = (fst (get_daily_calories "2024-01-02" before), updated)
  /\ read_meals_by_date "2024-01-02" updated
     = (fst (read_meals_by_date "2024-01-02" before), updated)
  /\ get_daily_calories "2024-01-02" deleted
     = (fst (get_daily_calories "2024-01-02" before), deleted)
  /\ read_meals_by_date "2024-01-02" deleted
     = (fst (read_meals_by_date "2024-01-02" before), deleted).
Proof.
  apply (writes_keep_other_days
           sample_rows 2 (Some [default_user]) 2 "Snacks" "Nuts"
           (Float.of_Z 10) "1" "salted" "2024-01-02").
  intros r Hr _. simpl in Hr.
  destruct Hr as [<- | [<- | []]]; simpl; discriminate.
Defined.

(** The week ending on 2024-01-05 with a clock that stays on that day. *)
Lemma get_weekly_data_steady_clock_witness :
  let self := open_store sample_rows 2 (Some [default_user]) in
  exists weekly_data : list (string * float),
    get_weekly_data (fun _ => Datetime.mkDatetime 738890 43200000000) self
    = (Returned weekly_data, self)
    /\ List.length weekly_data = 7%nat
    /\ map fst weekly_data = week_ending 738890
    /\ forall date total,
         In (date, total) weekly_data ->
         get_daily_calories date self = (Returned total, self)
         /\ ((forall r, In r sample_rows -> Meals.date r <> date) ->
             total = Float.zero).
Proof.
  apply (get_weekly_data_steady_clock
           sample_rows 2 (Some [default_user])
           (fun _ => Datetime.mkDatetime 738890 43200000000) 738890).
  intros i _. reflexivity.
Defined.

Lemma nan_calories_are_refused_witness :
  let self := open_store sample_rows 2 (Some [default_user]) in
  create_meal sample_noon "2024-01-02" "Snacks" "Nuts" Float.nan "1" "salted"
              self
  = (Returned false, self)
  /\ update_meal 2 "Snacks" "Nuts" Float.nan "1" "salted" self
     = (Returned false, self).
Proof.
  apply (nan_calories_are_refused
           sample_rows 2 (Some [default_user]) sample_noon
           "2024-01-02" "Snacks" "Nuts" "1" "salted" 2).
  exists (Meals.mkRow 2 "2024-01-01" "Dinner" "Soup" (Float.of_Z 50)
                      (Some "1 bowl") (Some "") "2024-01-01T19:30:00").
  split; [right; left; reflexivity | reflexivity].
Defined.

(** After the meal 2 was deleted, a new meal does not get the id 2. *)
Lemma ids_are_never_reused_witness :
  let self :=
    snd (delete_meal 2 (open_store sample_rows 2 (Some [default_user]))) in
  let ops :=
    [CreateMeal sample_noon "2024-01-02" "Snacks" "Nuts" (Float.of_Z 10)
                "1" "salted"; ReadAllMeals; Close; Initialize] in
  id_counter self <= id_counter (perform_all ops self)
  /\ ~ In 2 (map Meals.id (stored_meals (perform_all ops self))).
Proof.
  apply (ids_are_never_reused
           [CreateMeal sample_noon "2024-01-02" "Snacks" "Nuts" (Float.of_Z 10)
                       "1" "salted"; ReadAllMeals; Close; Initialize]
           (snd (delete_meal 2 (open_store sample_rows 2 (Some [default_user]))))
           2).
  - exists [Meals.mkRow 1 "2024-01-01" "Lunch" "Rice" (Float.of_Z 200)
                        (Some "") (Some "") "2024-01-01T12:00:00"], 2.
    split; [reflexivity |]. split; [lia |]. split; [| split].
    + simpl. constructor; [intros [] | constructor].
    + intros r [<- | []]. simpl. lia.
    + intros r [<- | []]. reflexivity.
  - unfold id_counter; simpl. lia.
  - unfold stored_meals; simpl. intros [H | []]. discriminate H.
Defined.

Lemma update_meal_then_read_all_witness :
  let r := Meals.mkRow 2 "2024-01-01" "Dinner" "Soup" (Float.of_Z 50)
                       (Some "1 bowl") (Some "") "2024-01-01T19:30:00" in
  let after :=
    snd (update_meal (Meals.id r) "Snacks" "Nuts" (Float.of_Z 10) "1" "salted"
                     (open_store sample_rows 2 (Some [default_user]))) in
  let updated : logged_meal :=
    (Meals.id r, Meals.date r, "Snacks", "Nuts",
     Sqlite.stored_real (Float.of_Z 10),
     Some "1", Some "salted", Meals.timestamp r) in
  exists listing : list logged_meal,
    read_all_meals after = (Returned listing, after)
    /\ In updated listing
    /\ forall t, In t listing -> logged_meal_id t = Meals.id r -> t = updated.
Proof.
  apply (update_meal_then_read_all
           sample_rows 2 (Some [default_user])
           (Meals.mkRow 2 "2024-01-01" "Dinner" "Soup" (Float.of_Z 50)
                        (Some "1 bowl") (Some "") "2024-01-01T19:30:00")
           "Snacks" "Nuts" (Float.of_Z 10) "1" "salted").
  - simpl. constructor.
    + intros [H | []]. discriminate H.
    + constructor; [intros [] | constructor].
  - right; left; reflexivity.
  - reflexivity.
Defined.

(** "breakfast" after "BREAKFAST" keeps the two breakfasts of
    [sample_logs]; "lunch" after "breakfast" leaves nothing. *)
Lemma filter_logs_by_meal_type_composes_witness :
  filter_logs_by_meal_type (filter_logs_by_meal_type sample_logs "BREAKFAST")
                           "breakfast"
  = filter_logs_by_meal_type sample_logs "BREAKFAST"
  /\ filter_logs_by_meal_type (filter_logs_by_meal_type sample_logs "breakfast")
                              "lunch"
     = [].
Proof.
  assert (A : Forall (fun log => ascii_text (Models.meal_type log))
                     (sample_logs ++ []))
    by (repeat constructor).
  destruct (filter_logs_by_meal_type_composes
              sample_logs [] "BREAKFAST" "breakfast" eq_refl eq_refl A)
    as (Hsame & _).
  destruct (filter_logs_by_meal_type_composes
              sample_logs [] "breakfast" "lunch" eq_refl eq_refl A)
    as (_ & Hother & _).
  split.
  - apply Hsame. apply lower_eq_iff. reflexivity.
  - apply Hother. intros E. apply lower_eq_iff in E. discriminate E.
Defined.

(** A form with the calories "-5" is refused. *)
Lemma submit_refuses_invalid_form_witness :
  create_meal_submit sample_noon negative_form new_app = new_app
  /\ update_meal_submit negative_form (edit_meal 1 new_app)
     = edit_meal 1 new_app.
Proof.
  split.
  - apply (submit_refuses_invalid_form sample_noon negative_form new_app).
    right; right; right. exists (Float.of_Z (-5)). split; reflexivity.
  - apply (submit_refuses_invalid_form sample_noon negative_form
                                       (edit_meal 1 new_app)).
    right; right; right. exists (Float.of_Z (-5)). split; reflexivity.
Defined.

(** Submitting [sample_form] and then [negative_form] in a new
    application stores the one meal of [sample_form], stripped. *)
Lemma ui_stores_only_well_formed_meals_witness :
  let r := Meals.mkRow 1 "2024-01-02" "Snacks" "Nuts"
                       (Float.of_scaled 21 (-1)) (Some "1 handful")
                       (Some "salted") "2024-01-02T12:00:00" in
  stored_meals (db (ui_run [SubmitCreate sample_noon sample_form;
                            SubmitCreate sample_noon negative_form]
                           new_app))
  = [r]
  /\ Meals.food_name r <> ""
  /\ float_leb (Float.of_Z 0) (Meals.calories r) = true
  /\ Float.is_nan (Meals.calories r) = false.
Proof.
  split; [vm_compute; reflexivity |].
  apply (ui_stores_only_well_formed_meals
           [SubmitCreate sample_noon sample_form;
            SubmitCreate sample_noon negative_form]).
  vm_compute. left. reflexivity.
Defined.

Lemma load_meal_data_finds_edited_meal_witness :
  let store := open_store sample_rows 2 (Some [default_user]) in
  (forall r, In r sample_rows ->
     load_meal_data (mkCalQApp store (Some (Meals.id r)))
     = (Returned (Some (as_logged_meal r)),
        mkCalQApp store (Some (Meals.id r))))
  /\ (forall i, ~ In i (map Meals.id sample_rows) ->
        load_meal_data (mkCalQApp store (Some i))
        = (Returned None, mkCalQApp store (Some i)))
  /\ load_meal_data (mkCalQApp store None)
     = (Returned None, mkCalQApp store None)
  /\ forall f editing,
       load_meal_data (mkCalQApp (mkDatabaseManager None f) editing)
       = (Raised AttributeError,
          mkCalQApp (mkDatabaseManager None f) editing).
Proof.
  apply (load_meal_data_finds_edited_meal sample_rows 2 (Some [default_user])).
  simpl. constructor.
  - intros [H | []]. discriminate H.
  - constructor; [intros [] | constructor].
Defined.
